(** * Compliance scoring engine of validate-compliance.py

    Shallow embedding of [ComplianceValidator] from
    templates/skills/engineering-standards/scripts/validate-compliance.py:
    the eight category evaluators, [_add_result], the score / grade
    computation of [validate_all], together with the project snapshot they
    read.  Python [float] arithmetic is modelled by exact rationals [Q];
    Python [int] by [Z] (weights) and [nat] (counters). *)

From Stdlib Require Import List String Ascii Bool ZArith QArith Qabs Lia.
From Stdlib Require Import Numbers.DecimalString Lqa.
Import ListNotations.
Open Scope nat_scope.
Open Scope string_scope.

(* ------------------------------------------------------------------ *)
(** ** Python string operations used by the evaluators *)

Module Py.

(** [sub in s]: substring test. *)
Fixpoint contains (sub s : string) : bool :=
  prefix sub s ||
  match s with
  | EmptyString => false
  | String _ s' => contains sub s'
  end.

Fixpoint rev_str (s : string) : string :=
  match s with
  | EmptyString => EmptyString
  | String c s' => rev_str s' ++ String c EmptyString
  end.

(** [s.endswith(suf)] *)
Definition endswith (s suf : string) : bool :=
  prefix (rev_str suf) (rev_str s).

(** [s.replace(c, r)] for a one-character [c]. *)
Fixpoint replace (c : ascii) (r s : string) : string :=
  match s with
  | EmptyString => EmptyString
  | String d s' =>
      if Ascii.eqb c d then r ++ replace c r s' else String d (replace c r s')
  end.

(** [s.lower()] on ASCII text. *)
Definition lower_char (c : ascii) : ascii :=
  let n := nat_of_ascii c in
  if ((65 <=? n) && (n <=? 90))%nat then ascii_of_nat (n + 32)%nat else c.

Fixpoint lower (s : string) : string :=
  match s with
  | EmptyString => EmptyString
  | String c s' => String (lower_char c) (lower s')
  end.

(** [s.rstrip('/')] *)
Definition rstrip_slash (s : string) : string :=
  let fix drop (r : string) :=
    match r with
    | String "/" r' => drop r'
    | _ => r
    end in
  rev_str (drop (rev_str s)).

(** the double-quote character as a one-letter string *)
Definition dq : string := String (ascii_of_nat 34) EmptyString.

(** [sep.join(l)] *)
Definition join (sep : string) (l : list string) : string :=
  String.concat sep l.

(** [str(n)] for a non-negative int. *)
Definition str_nat (n : nat) : string :=
  NilEmpty.string_of_uint (Nat.to_uint n).

(** last index of a character, as [str.rfind] (None for -1). *)
Fixpoint rfind (c : ascii) (s : string) : option nat :=
  match s with
  | EmptyString => None
  | String d s' =>
      match rfind c s' with
      | Some i => Some (S i)
      | None => if Ascii.eqb c d then Some 0 else None
      end
  end.

(** [fnmatch] for the patterns the evaluators pass to [glob]/[rglob]:
    [*] matches any run of characters, [?] one character, and every other
    character (braces and commas included) matches itself only. *)
Fixpoint fnmatch (pat name : string) : bool :=
  match pat with
  | EmptyString => match name with EmptyString => true | _ => false end
  | String c pat' =>
      if Ascii.eqb c "*" then
        let fix star (n : string) :=
          fnmatch pat' n || match n with
                            | EmptyString => false
                            | String _ n' => star n'
                            end in
        star name
      else if Ascii.eqb c "?" then
        match name with EmptyString => false | String _ n' => fnmatch pat' n' end
      else
        match name with
        | EmptyString => false
        | String d n' => Ascii.eqb c d && fnmatch pat' n'
        end
  end.

End Py.

(* ------------------------------------------------------------------ *)
(** ** Project snapshot (the files under [project_path]) *)

(** A file as [Path.read_text] sees it: the decoded text (with undecodable
    bytes dropped, as [errors='ignore'] does), whether it may be opened,
    and whether it is valid in the platform encoding. *)
Record file_data := mkFile {
  content : string;
  readable : bool;
  decodable : bool
}.

Inductive entry := EDir | EFile (d : file_data).

(** Entries by path relative to the project root ("src/a.ts"); the list
    order is the order in which the file system lists them. *)
Record snapshot := mkSnap { entries : list (string * entry) }.

Inductive exn :=
| KeyError (k : string)
| TypeError
| UnicodeDecodeError
| PermissionError
| FileNotFoundError
| IsADirectoryError.

Module FS.

Fixpoint lookup (l : list (string * entry)) (p : string) : option entry :=
  match l with
  | [] => None
  | (q, e) :: l' => if String.eqb p q then Some e else lookup l' p
  end.

Definition exists_ (s : snapshot) (p : string) : bool :=
  match lookup (entries s) p with Some _ => true | None => false end.

Definition is_dir (s : snapshot) (p : string) : bool :=
  match lookup (entries s) p with Some EDir => true | _ => false end.

Definition is_file (s : snapshot) (p : string) : bool :=
  match lookup (entries s) p with Some (EFile _) => true | _ => false end.

(** [Path.read_text()] *)
Definition read_text (s : snapshot) (p : string) : exn + string :=
  match lookup (entries s) p with
  | None => inl FileNotFoundError
  | Some EDir => inl IsADirectoryError
  | Some (EFile d) =>
      if negb (readable d) then inl PermissionError
      else if negb (decodable d) then inl UnicodeDecodeError
      else inr (content d)
  end.

(** [Path.read_text(errors='ignore')] *)
Definition read_text_ignore (s : snapshot) (p : string) : exn + string :=
  match lookup (entries s) p with
  | None => inl FileNotFoundError
  | Some EDir => inl IsADirectoryError
  | Some (EFile d) =>
      if negb (readable d) then inl PermissionError else inr (content d)
  end.

(** [Path.name] *)
Fixpoint basename_aux (s acc : string) : string :=
  match s with
  | EmptyString => acc
  | String "/" s' => basename_aux s' EmptyString
  | String c s' => basename_aux s' (acc ++ String c EmptyString)
  end.
Definition basename (p : string) : string := basename_aux p EmptyString.

(** [Path.stem] *)
Definition stem (p : string) : string :=
  let n := basename p in
  match Py.rfind "." n with
  | Some i => if ((0 <? i) && (i <? String.length n - 1))%nat
              then substring 0 i n else n
  | None => n
  end.

(** [Path(d).rglob(pat)]: every entry strictly below [d] whose name
    matches [pat]. *)
Definition rglob (s : snapshot) (d pat : string) : list string :=
  map fst (filter (fun '(p, _) => prefix (d ++ "/") p
                                  && Py.fnmatch pat (basename p))
                  (entries s)).

(** [Path(d).glob(pat)]: the direct children of [d] whose name matches. *)
Definition glob (s : snapshot) (d pat : string) : list string :=
  map fst (filter (fun '(p, _) => prefix (d ++ "/") p
                                  && negb (Py.contains "/" (substring (String.length d + 1)%nat (String.length p) p))
                                  && Py.fnmatch pat (basename p))
                  (entries s)).

(** [os.listdir(project_path)] *)
Definition listdir (s : snapshot) : list string :=
  map fst (filter (fun '(p, _) => negb (Py.contains "/" p)) (entries s)).

End FS.

(* ------------------------------------------------------------------ *)
(** ** [ValidationResult], [CategoryResult] and the rule configuration *)

Record ValidationResult := mkVR {
  category : string;
  check_name : string;
  passed : bool;
  severity : string;  (* 'critical', 'warning', 'info' *)
  message : string;
  details : option string
}.

Record CategoryResult := mkCR {
  name : string;
  weight : Z;
  checks_passed : nat;
  checks_failed : nat;
  checks_warned : nat;
  score : Q;
  results : list ValidationResult
}.

(** The parsed rules-config.json.  [validation_categories] keeps the
    optionality the engine consults: the key itself may be missing
    ([None]), a category may have no entry, and an entry may lack its
    ['weight'].  [compliance_grading] keeps the document's key order with
    each grade's ['min_percent'].  The per-category rule parameters are the
    fields the evaluators read. *)
Record config := mkConfig {
  validation_categories : option (list (string * option Z));
  compliance_grading : list (string * Q);
  hooks_enabled : bool;
  hooks_pre_commit_commands : list string;
  hooks_pre_push_commands : list string;
  documentation_enabled : bool;
  documentation_required_claude_sections : list string;
  documentation_wip_directory : string;
  documentation_allowed_root_files : list string;
  testing_enabled : bool;
  testing_vitest_required : bool;
  testing_vitest_config_file : string;
  testing_vitest_required_scripts : list string;
  testing_playwright_required_for_web : bool;
  testing_playwright_config_file : string;
  quality_gates_enabled : bool;
  quality_gates_eslint_required : bool;
  quality_gates_eslint_config_file : string;
  quality_gates_typescript_required : bool;
  quality_gates_typescript_config_file : string;
  quality_gates_prettier_required : bool;
  quality_gates_prettier_config_file : string;
  quality_gates_quality_script_required : bool;
  quality_gates_quality_script_name : string;
  git_enabled : bool;
  git_gitignore_must_include : list string;
  security_enabled : bool;
  security_env_example_file_name : string;
  naming_conventions_enabled : bool;
  naming_conventions_forbidden_suffixes : list string;
  migrations_enabled_for_supabase : bool
}.

(* ------------------------------------------------------------------ *)
(** ** Evaluators: a writer / exception monad

    An evaluator emits the [ValidationResult]s it hands to [_add_result],
    in call order, and may stop with a Python exception.  [validate_all]
    then feeds the emitted results to [_add_result] one by one. *)

Definition Eval (A : Type) : Type := (list ValidationResult * (exn + A))%type.

Definition ret {A} (a : A) : Eval A := ([], inr a).
Definition raise {A} (e : exn) : Eval A := ([], inl e).
Definition lift {A} (x : exn + A) : Eval A := ([], x).
Definition add_result (r : ValidationResult) : Eval unit := ([r], inr tt).

Definition bind {A B} (m : Eval A) (f : A -> Eval B) : Eval B :=
  match m with
  | (l, inl e) => (l, inl e)
  | (l, inr a) => let (l', r) := f a in (app l l', r)
  end.

Notation "x <- m ;; k" := (bind m (fun x => k))
  (at level 61, m at next level, right associativity).
Notation "m ;; k" := (bind m (fun _ : unit => k))
  (at level 61, right associativity).

(** [for x in l: body] *)
Fixpoint for_ {X} (l : list X) (body : X -> Eval unit) : Eval unit :=
  match l with
  | [] => ret tt
  | x :: l' => body x ;; for_ l' body
  end.

Module Validator.
Section Evaluators.
Variable cfg : config.
Variable snap : snapshot.

Definition file_exists (p : string) : bool := FS.exists_ snap p.

(** [_read_file] *)
Definition read_file (p : string) : option string :=
  if FS.exists_ snap p then
    match FS.read_text snap p with inr c => Some c | inl _ => None end
  else None.

(** [_check_file_contains] *)
Definition check_file_contains (p pat : string) : bool :=
  match read_file p with Some c => Py.contains pat c | None => false end.

(** [pat in x] where [x] is an [Optional[str]]: [None] raises. *)
Definition in_opt (pat : string) (x : option string) : exn + bool :=
  match x with Some c => inr (Py.contains pat c) | None => inl TypeError end.

(** Python truthiness of an [Optional[str]]. *)
Definition truthy (x : option string) : bool :=
  match x with Some c => negb (String.eqb c EmptyString) | None => false end.

Definition found_or (b : bool) (missing present : string) : option string :=
  Some (if b then present else missing).

(** *** validate_hooks *)
Definition validate_hooks : Eval unit :=
  if negb (hooks_enabled cfg) then ret tt else
  let lefthook_path :=
    if file_exists ".lefthook.yml" then Some ".lefthook.yml"
    else if file_exists "lefthook.yml" then Some "lefthook.yml" else None in
  let lefthook_exists := match lefthook_path with Some _ => true | None => false end in
  add_result (mkVR "hooks" "lefthook_config_exists" lefthook_exists "critical"
                "lefthook.yml configuration file"
                (match lefthook_path with
                 | Some p => Some ("Found: " ++ p) | None => Some "Not found" end)) ;;
  (match lefthook_path with
   | Some lp =>
       for_ (hooks_pre_commit_commands cfg) (fun cmd =>
         let has_cmd := check_file_contains lp (cmd ++ ":") in
         add_result (mkVR "hooks" ("pre_commit_" ++ cmd) has_cmd "warning"
                       ("Pre-commit hook: " ++ cmd)
                       (found_or has_cmd "Missing" "Configured"))) ;;
       for_ (hooks_pre_push_commands cfg) (fun cmd =>
         let has_cmd := check_file_contains lp (cmd ++ ":") in
         add_result (mkVR "hooks" ("pre_push_" ++ cmd) has_cmd "warning"
                       ("Pre-push hook: " ++ cmd)
                       (found_or has_cmd "Missing" "Configured")))
   | None => ret tt
   end) ;;
  let claude_settings := file_exists ".claude/settings.json" in
  add_result (mkVR "hooks" "claude_settings_exists" claude_settings "warning"
                "Claude Code settings.json"
                (found_or claude_settings "Not found" "Found")).

(** *** validate_documentation *)
Definition validate_documentation : Eval unit :=
  if negb (documentation_enabled cfg) then ret tt else
  let claude_md_exists := file_exists "CLAUDE.md" in
  add_result (mkVR "documentation" "claude_md_exists" claude_md_exists "critical"
                "CLAUDE.md file exists"
                (found_or claude_md_exists "Not found" "Found")) ;;
  (if claude_md_exists then
     let claude_content := read_file "CLAUDE.md" in
     for_ (documentation_required_claude_sections cfg) (fun section =>
       has_section <- lift (in_opt ("## " ++ section) claude_content) ;;
       add_result (mkVR "documentation"
                     ("claude_section_" ++ Py.replace " " "_" (Py.lower section))
                     has_section "warning"
                     ("CLAUDE.md section: " ++ section)
                     (found_or has_section "Missing" "Present")))
   else ret tt) ;;
  let wip_dir := documentation_wip_directory cfg in
  add_result (mkVR "documentation" "wip_directory_exists" (file_exists wip_dir) "info"
                ("WIP directory: " ++ wip_dir)
                (Some "Recommended but not required")) ;;
  let root_md_files :=
    filter (fun f => Py.endswith f ".md" &&
                     negb (existsb (String.eqb f) (documentation_allowed_root_files cfg)))
           (FS.listdir snap) in
  let has_forbidden := negb (Nat.eqb (List.length root_md_files) 0) in
  add_result (mkVR "documentation" "no_forbidden_root_md" (negb has_forbidden) "critical"
                "No forbidden root .md files"
                (Some (if has_forbidden then "Found: " ++ Py.join ", " root_md_files
                       else "Clean"))).

(** first path of [l] that exists *)
Fixpoint first_existing (l : list string) : option string :=
  match l with
  | [] => None
  | p :: l' => if file_exists p then Some p else first_existing l'
  end.

(** *** validate_testing *)
Definition validate_testing : Eval unit :=
  if negb (testing_enabled cfg) then ret tt else
  (if testing_vitest_required cfg then
     let vitest_path := first_existing [testing_vitest_config_file cfg;
                                        "apps/web/vitest.config.ts";
                                        "apps/web/vitest.config.js"] in
     let vitest_exists := match vitest_path with Some _ => true | None => false end in
     add_result (mkVR "testing" "vitest_config_exists" vitest_exists "critical"
                   "Vitest configuration file"
                   (match vitest_path with
                    | Some p => Some ("Found: " ++ p) | None => Some "Not found" end)) ;;
     (match vitest_path with
      | Some vp =>
          let has_coverage := check_file_contains vp "thresholds" in
          add_result (mkVR "testing" "vitest_coverage_configured" has_coverage "warning"
                        "Vitest coverage thresholds configured"
                        (found_or has_coverage "Missing" "Configured"))
      | None => ret tt
      end) ;;
     let package_json := read_file "package.json" in
     match package_json with
     | Some pj =>
         if truthy package_json then
           for_ (testing_vitest_required_scripts cfg) (fun script =>
             let has_script := Py.contains script pj in
             add_result (mkVR "testing" ("test_script_" ++ Py.replace ":" "_" script)
                           has_script "warning" ("Test script: " ++ script)
                           (found_or has_script "Missing" "Present")))
         else ret tt
     | None => ret tt
     end
   else ret tt) ;;
  if testing_playwright_required_for_web cfg then
    if file_exists "next.config.js" || file_exists "next.config.mjs" then
      let playwright_exists := file_exists (testing_playwright_config_file cfg) in
      add_result (mkVR "testing" "playwright_config_exists" playwright_exists "info"
                    "Playwright E2E testing configured"
                    (Some "Recommended for web projects"))
    else ret tt
  else ret tt.

(** *** validate_quality_gates *)
Definition validate_quality_gates : Eval unit :=
  if negb (quality_gates_enabled cfg) then ret tt else
  (if quality_gates_eslint_required cfg then
     let eslint_path := first_existing [quality_gates_eslint_config_file cfg;
                                        ".eslintrc.json"; ".eslintrc.js";
                                        "eslint.config.js";
                                        "apps/web/eslint.config.mjs";
                                        "apps/web/.eslintrc.json"] in
     let eslint_exists := match eslint_path with Some _ => true | None => false end in
     add_result (mkVR "quality_gates" "eslint_config_exists" eslint_exists "critical"
                   "ESLint configuration file"
                   (match eslint_path with
                    | Some p => Some ("Found: " ++ p) | None => Some "Not found" end))
   else ret tt) ;;
  (if quality_gates_typescript_required cfg then
     let ts_file := quality_gates_typescript_config_file cfg in
     let ts_exists := file_exists ts_file in
     add_result (mkVR "quality_gates" "typescript_config_exists" ts_exists "critical"
                   "TypeScript configuration file"
                   (found_or ts_exists "Not found" "Found")) ;;
     if ts_exists then
       let has_strict := check_file_contains ts_file (Py.dq ++ "strict" ++ Py.dq ++ ": true") in
       add_result (mkVR "quality_gates" "typescript_strict_mode" has_strict "warning"
                     "TypeScript strict mode enabled"
                     (found_or has_strict "Not enabled" "Enabled"))
     else ret tt
   else ret tt) ;;
  (if quality_gates_prettier_required cfg then
     let prettier_exists := file_exists (quality_gates_prettier_config_file cfg) in
     add_result (mkVR "quality_gates" "prettier_config_exists" prettier_exists "warning"
                   "Prettier configuration file"
                   (found_or prettier_exists "Not found" "Found"))
   else ret tt) ;;
  if quality_gates_quality_script_required cfg then
    let package_json := read_file "package.json" in
    match package_json with
    | Some pj =>
        if truthy package_json then
          let has_quality := Py.contains (quality_gates_quality_script_name cfg) pj in
          add_result (mkVR "quality_gates" "quality_script_exists" has_quality "warning"
                        "Quality script in package.json"
                        (found_or has_quality "Missing" "Present"))
        else ret tt
    | None => ret tt
    end
  else ret tt.

(** *** validate_git *)
Definition validate_git : Eval unit :=
  if negb (git_enabled cfg) then ret tt else
  let gitignore_exists := file_exists ".gitignore" in
  add_result (mkVR "git" "gitignore_exists" gitignore_exists "critical"
                ".gitignore file exists"
                (found_or gitignore_exists "Not found" "Found")) ;;
  if gitignore_exists then
    let gitignore_content := read_file ".gitignore" in
    for_ (git_gitignore_must_include cfg) (fun entry =>
      let entry_base := Py.rstrip_slash entry in
      has_entry <- lift (match in_opt entry gitignore_content with
                         | inr true => inr true
                         | inr false => in_opt entry_base gitignore_content
                         | inl e => inl e
                         end) ;;
      add_result (mkVR "git"
                    ("gitignore_has_" ++ Py.replace "." "_" (Py.replace "/" "_" entry))
                    has_entry "info" (".gitignore includes " ++ entry)
                    (found_or has_entry "Missing" "Present")))
  else ret tt.

(** *** validate_security *)
Definition dangerous_patterns : list (string * string) :=
  [("sk_live_", "Stripe live key");
   ("pk_live_", "Stripe live publishable key");
   ("AKIA", "AWS access key")].

Definition security_source_dirs : list string :=
  ["app"; "src"; "lib"; "pages"; "components"].

Definition secret_glob : string := "*.{ts,tsx,js,jsx}".

(** [for pattern, name in dangerous_patterns: if pattern in content:
    self._add_result(...); break] *)
Fixpoint scan_patterns (file_path content : string) (pats : list (string * string))
  : Eval unit :=
  match pats with
  | [] => ret tt
  | (pattern, pname) :: pats' =>
      if Py.contains pattern content then
        add_result (mkVR "security" "no_hardcoded_secrets" false "critical"
                      ("Potential " ++ pname ++ " hardcoded")
                      (Some ("Found in " ++ file_path)))
      else scan_patterns file_path content pats'
  end.

(** the body of the loop over the scanned files *)
Definition scan_file (file_path : string) : Eval unit :=
  content <- lift (FS.read_text_ignore snap file_path) ;;
  scan_patterns file_path content dangerous_patterns.

(** the body of the loop over [source_dirs] *)
Definition scan_dir (dir_name : string) : Eval unit :=
  if FS.exists_ snap dir_name && FS.is_dir snap dir_name then
    for_ (FS.rglob snap dir_name secret_glob) scan_file
  else ret tt.

Definition validate_security : Eval unit :=
  if negb (security_enabled cfg) then ret tt else
  let env_example := security_env_example_file_name cfg in
  let env_example_exists := file_exists env_example in
  add_result (mkVR "security" "env_example_exists" env_example_exists "warning"
                (env_example ++ " file exists")
                (found_or env_example_exists "Not found (recommended)" "Found")) ;;
  for_ security_source_dirs scan_dir.

(** *** validate_naming_conventions *)
Definition naming_source_dirs : list string :=
  ["app"; "src"; "lib"; "pages"; "components"; "packages"].

Definition files_with_suffixes : list string :=
  flat_map (fun dir_name =>
    if FS.exists_ snap dir_name && FS.is_dir snap dir_name then
      filter (fun file_path =>
                FS.is_file snap file_path &&
                existsb (fun suffix => Py.endswith (FS.stem file_path) suffix)
                        (naming_conventions_forbidden_suffixes cfg))
             (FS.rglob snap dir_name "*")
    else []) naming_source_dirs.

Definition validate_naming_conventions : Eval unit :=
  if negb (naming_conventions_enabled cfg) then ret tt else
  let fws := files_with_suffixes in
  let has_forbidden_suffixes := negb (Nat.eqb (List.length fws) 0) in
  add_result (mkVR "naming_conventions" "no_version_suffixes"
                (negb has_forbidden_suffixes) "critical"
                "No version/enhancement suffixes in filenames"
                (Some (if has_forbidden_suffixes
                       then "Found " ++ Py.str_nat (List.length fws) ++ " files: "
                            ++ Py.join ", " (firstn 3 fws)
                            ++ (if Nat.ltb 3 (List.length fws) then "..." else EmptyString)
                       else "Clean"))).

(** *** validate_migrations *)
Definition migration_issues (content : string) : list string :=
  (if Py.contains "CREATE POLICY" content && negb (Py.contains "DO $$" content)
   then ["CREATE POLICY without DO $$ block"] else []) ++
  (if Py.contains "CREATE TRIGGER" content
      && negb (Py.contains "DROP TRIGGER IF EXISTS" content)
   then ["CREATE TRIGGER without DROP IF EXISTS"] else []) ++
  (if Py.contains "ADD CONSTRAINT" content && negb (Py.contains "DO $$" content)
   then ["ADD CONSTRAINT without idempotency check"] else []).

(** the loop over [migrations_path.glob('*.sql')], collecting
    [non_idempotent_files] *)
Fixpoint scan_migrations (files : list string) : exn + list string :=
  match files with
  | [] => inr []
  | f :: fs =>
      match FS.read_text snap f with
      | inl e => inl e
      | inr content =>
          let issues := migration_issues content in
          match scan_migrations fs with
          | inl e => inl e
          | inr rest =>
              inr (match issues with
                   | [] => rest
                   | _ => (FS.basename f ++ ": " ++ Py.join ", " issues) :: rest
                   end)
          end
      end
  end.

Definition validate_migrations : Eval unit :=
  if negb (migrations_enabled_for_supabase cfg) then ret tt else
  let migrations_dir := if file_exists "supabase/migrations" then "supabase/migrations"
                        else "apps/web/supabase/migrations" in
  if negb (file_exists migrations_dir) then ret tt else
  nif <- lift (scan_migrations (FS.glob snap migrations_dir "*.sql")) ;;
  let has_issues := negb (Nat.eqb (List.length nif) 0) in
  add_result (mkVR "migrations" "migrations_idempotent" (negb has_issues) "critical"
                "All migrations are idempotent"
                (Some (if has_issues
                       then "Issues in " ++ Py.str_nat (List.length nif) ++ " files: "
                            ++ Py.join "; " (firstn 2 nif)
                            ++ (if Nat.ltb 2 (List.length nif) then "..." else EmptyString)
                       else "All idempotent"))).

(** The eight evaluators in the order [validate_all] calls them. *)
Definition run_evaluators : Eval unit :=
  validate_hooks ;;
  validate_documentation ;;
  validate_testing ;;
  validate_quality_gates ;;
  validate_git ;;
  validate_security ;;
  validate_naming_conventions ;;
  validate_migrations.

End Evaluators.

(* ------------------------------------------------------------------ *)
(** ** Aggregation: [_add_result] and the end of [validate_all] *)

(** [self.results], in insertion order (the dict's iteration order); the
    key of an entry is its [name]. *)
Definition results_t := list CategoryResult.

Fixpoint find_cat (st : results_t) (c : string) : option CategoryResult :=
  match st with
  | [] => None
  | cr :: st' => if String.eqb (name cr) c then Some cr else find_cat st' c
  end.

Fixpoint assoc {A} (l : list (string * A)) (k : string) : option A :=
  match l with
  | [] => None
  | (k', v) :: l' => if String.eqb k k' then Some v else assoc l' k
  end.

(** [self.config['validation_categories'].get(category, {}).get('weight', 10)] *)
Definition category_weight (cfg : config) (c : string) : exn + Z :=
  match validation_categories cfg with
  | None => inl (KeyError "validation_categories")
  | Some vc =>
      match assoc vc c with
      | Some (Some w) => inr w
      | _ => inr 10%Z
      end
  end.

(** The counter update of [_add_result] and the append of the result. *)
Definition tally (r : ValidationResult) (cr : CategoryResult) : CategoryResult :=
  let cr' := mkCR (name cr) (weight cr) (checks_passed cr) (checks_failed cr)
                  (checks_warned cr) (score cr) (app (results cr) [r]) in
  if passed r then
    mkCR (name cr') (weight cr') (S (checks_passed cr')) (checks_failed cr')
         (checks_warned cr') (score cr') (results cr')
  else if String.eqb (severity r) "critical" then
    mkCR (name cr') (weight cr') (checks_passed cr') (S (checks_failed cr'))
         (checks_warned cr') (score cr') (results cr')
  else
    mkCR (name cr') (weight cr') (checks_passed cr') (checks_failed cr')
         (S (checks_warned cr')) (score cr') (results cr').

Fixpoint update_cat (st : results_t) (c : string) (f : CategoryResult -> CategoryResult)
  : results_t :=
  match st with
  | [] => []
  | cr :: st' => if String.eqb (name cr) c then f cr :: st'
                 else cr :: update_cat st' c f
  end.

(** [_add_result] *)
Definition add_result_to (cfg : config) (st : results_t) (r : ValidationResult)
  : exn + results_t :=
  let c := category r in
  match
    match find_cat st c with
    | Some _ => inr st
    | None =>
        match category_weight cfg c with
        | inl e => inl e
        | inr w => inr (app st [mkCR c w 0 0 0 0%Q []])
        end
    end
  with
  | inl e => inl e
  | inr st1 => inr (update_cat st1 c (tally r))
  end.

(** the successive [_add_result] calls of a run *)
Fixpoint add_all (cfg : config) (st : results_t) (rs : list ValidationResult)
  : exn + results_t :=
  match rs with
  | [] => inr st
  | r :: rs' =>
      match add_result_to cfg st r with
      | inl e => inl e
      | inr st' => add_all cfg st' rs'
      end
  end.

Definition cat_total (cr : CategoryResult) : nat :=
  checks_passed cr + checks_failed cr + checks_warned cr.

(** the body of [for category, result in self.results.items()] *)
Fixpoint calculate_scores (st : results_t) (total_score : Q) (total_weight : Z)
  : results_t * Q * Z :=
  match st with
  | [] => ([], total_score, total_weight)
  | cr :: st' =>
      let total_checks := cat_total cr in
      if Nat.ltb 0 total_checks then
        let passed_score := inject_Z (Z.of_nat (checks_passed cr)) in
        let warned_score := (inject_Z (Z.of_nat (checks_warned cr)) * (1#2))%Q in
        let s := (((passed_score + warned_score) / inject_Z (Z.of_nat total_checks))
                  * 100)%Q in
        let cr' := mkCR (name cr) (weight cr) (checks_passed cr) (checks_failed cr)
                        (checks_warned cr) s (results cr) in
        let weighted_score := (s * inject_Z (weight cr))%Q in
        let '(rest, ts, tw) := calculate_scores st' (total_score + weighted_score)%Q
                                                (total_weight + weight cr)%Z in
        (cr' :: rest, ts, tw)
      else
        let '(rest, ts, tw) := calculate_scores st' total_score total_weight in
        (cr :: rest, ts, tw)
  end.

(** [grade = 'F'; for grade_name, grade_config in ...: if overall_score >=
    grade_config['min_percent']: grade = grade_name; break] *)
Fixpoint determine_grade (grading : list (string * Q)) (overall_score : Q) : string :=
  match grading with
  | [] => "F"
  | (grade_name, min_percent) :: rest =>
      if Qle_bool min_percent overall_score then grade_name
      else determine_grade rest overall_score
  end.

(** [overall_score = total_score / total_weight if total_weight > 0 else 0] *)
Definition overall_of (total_score : Q) (total_weight : Z) : Q :=
  if Z.ltb 0 total_weight then (total_score / inject_Z total_weight)%Q else 0%Q.

(** [validate_all]: returns [(overall_score, grade)] and the final
    [self.results] (what [export_json] reports). *)
(** The evaluators run first and [_add_result] is fed their results in
    order.  [_add_result] can only raise for a category it has not seen,
    and it then raises on the very first result of the run; so feeding
    all emitted results before looking at an evaluator's exception yields
    the exception the interleaved Python run raises. *)
Definition validate_all (cfg : config) (snap : snapshot)
  : exn + (Q * string * results_t) :=
  let (emitted, outcome) := run_evaluators cfg snap in
  match add_all cfg [] emitted with
  | inl e => inl e
  | inr st =>
      match outcome with
      | inl e => inl e
      | inr _ =>
          let '(st', total_score, total_weight) := calculate_scores st 0%Q 0%Z in
          let overall_score := overall_of total_score total_weight in
          inr (overall_score, determine_grade (compliance_grading cfg) overall_score, st')
      end
  end.

End Validator.

(* ------------------------------------------------------------------ *)
(** ** Reporting: [print_results], [export_json] and [main] *)

Module Report.
Import Validator.

(** [s * n] for a string *)
Fixpoint repeat_str (n : nat) (s : string) : string :=
  match n with
  | O => EmptyString
  | S n' => s ++ repeat_str n' s
  end.

(** the newline character, as "\n" in a Python literal *)
Definition nl : string := String (ascii_of_nat 10) EmptyString.

(** [s.upper()] on ASCII text *)
Definition upper_char (c : ascii) : ascii :=
  let n := nat_of_ascii c in
  if ((97 <=? n) && (n <=? 122))%nat then ascii_of_nat (n - 32)%nat else c.

Fixpoint upper (s : string) : string :=
  match s with
  | EmptyString => EmptyString
  | String c s' => String (upper_char c) (upper s')
  end.

(** [sorted(self.results.items())]: the keys of [self.results] are distinct
    category names, so the tuples are ordered by their names (Python
    compares [str] by code points, as [String.leb] compares the UTF-8
    bytes); an insertion sort gives the same list. *)
Fixpoint insert_by_name (cr : CategoryResult) (st : results_t) : results_t :=
  match st with
  | [] => [cr]
  | cr' :: st' => if String.leb (name cr) (name cr') then cr :: st
                  else cr' :: insert_by_name cr st'
  end.

Definition sorted_items (st : results_t) : results_t :=
  fold_right insert_by_name [] st.

(** [if check.details: print(f"{indent}{check.details}")] *)
Definition details_lines (indent : string) (d : option string) : list string :=
  match d with
  | Some s => if String.eqb s EmptyString then [] else [indent ++ s]
  | None => []
  end.

Definition status_icon (cr : CategoryResult) : string :=
  if Nat.eqb (checks_failed cr) 0 then "✓"
  else if Nat.ltb 0 (checks_failed cr) then "✗" else "⚠".

(** the lines printed for one check of a category *)
Definition check_lines (check : ValidationResult) : list string :=
  if negb (passed check) &&
     (String.eqb (severity check) "critical" || String.eqb (severity check) "warning")
  then
    let icon := if String.eqb (severity check) "critical" then "  ✗" else "  ⚠" in
    (icon ++ " " ++ message check) :: details_lines "     " (details check)
  else [].

Section Printing.

(** [format(x, '.1f')] *)
Variable fmt_1f : Q -> string.

(** the lines printed for one category: its header, its failed checks and
    the empty [print()] *)
Definition category_lines (cr : CategoryResult) : list string :=
  let total := cat_total cr in
  (status_icon cr ++ " " ++ upper (name cr) ++ ": " ++ fmt_1f (score cr) ++ "% ("
   ++ Py.str_nat (checks_passed cr) ++ "/" ++ Py.str_nat total ++ " passed)")
  :: app (flat_map check_lines (results cr)) [EmptyString].

(** [critical_failures = [r for cat in self.results.values() for r in
    cat.results if not r.passed and r.severity == 'critical']] *)
Definition critical_failures (st : results_t) : list ValidationResult :=
  flat_map (fun cr => filter (fun r => negb (passed r) && String.eqb (severity r) "critical")
                             (results cr)) st.

(** [for i, result in enumerate(l, i)] *)
Fixpoint numbered_lines (i : nat) (l : list ValidationResult) : list string :=
  match l with
  | [] => []
  | r :: l' => app ((Py.str_nat i ++ ". " ++ message r) :: details_lines "   " (details r))
                   (numbered_lines (S i) l')
  end.

Definition critical_lines (cf : list ValidationResult) : list string :=
  match cf with
  | [] => []
  | _ =>
      app (("⚠️  CRITICAL ISSUES TO FIX:" ++ nl)
           :: numbered_lines 1 (firstn 5 cf))
          (app (if Nat.ltb 5 (List.length cf)
                then [nl ++ "... and " ++ Py.str_nat (List.length cf - 5)
                      ++ " more critical issues"]
                else [])
               [EmptyString])
  end.

(** [self.config['compliance_grading'][grade]]: a missing grade raises
    [KeyError(grade)] *)
Definition grading_has (grading : list (string * Q)) (grade : string) : bool :=
  existsb (fun '(k, _) => String.eqb k grade) grading.

(** [print_results]: the text of each [print] call in order (each adds a
    newline), then the exception that stops it, if any.  [descriptions]
    gives the ['description'] of each band of [compliance_grading], which
    [config] does not carry ([None]: the band has no such key). *)
Definition print_results (cfg : config) (descriptions : list (string * option string))
    (st : results_t) (score : Q) (grade : string) : list string * option exn :=
  let bar := repeat_str 70 "=" in
  let before :=
    app [(nl ++ bar); "  COMPLIANCE REPORT"; (bar ++ nl)]
        (app (flat_map category_lines (sorted_items st))
             [bar; "Overall Compliance: " ++ fmt_1f score ++ "% (Grade: " ++ grade ++ ")"]) in
  if negb (grading_has (compliance_grading cfg) grade) then (before, Some (KeyError grade))
  else
    match assoc descriptions grade with
    | Some (Some d) =>
        (app before (app ["Description: " ++ d; bar ++ nl]
                         (critical_lines (critical_failures st))), None)
    | _ => (before, Some (KeyError "description"))
    end.

End Printing.

(** the value [export_json] builds, as [json.dumps] sees it *)
#[warnings="-register-all"]
Inductive json :=
| JNull
| JBool (b : bool)
| JNum (q : Q)
| JInt (n : Z)
| JStr (s : string)
| JList (l : list json)
| JObj (l : list (string * json)).

Definition json_of_result (r : ValidationResult) : json :=
  JObj [("check", JStr (check_name r)); ("passed", JBool (passed r));
        ("severity", JStr (severity r)); ("message", JStr (message r));
        ("details", match details r with Some d => JStr d | None => JNull end)].

Definition json_of_category (cat : CategoryResult) : json :=
  JObj [("score", JNum (score cat)); ("weight", JInt (weight cat));
        ("checks_passed", JInt (Z.of_nat (checks_passed cat)));
        ("checks_failed", JInt (Z.of_nat (checks_failed cat)));
        ("checks_warned", JInt (Z.of_nat (checks_warned cat)));
        ("results", JList (map json_of_result (results cat)))].

(** [export_json] *)
Definition export_json (st : results_t) (score : Q) (grade : string) : json :=
  JObj [("overall_score", JNum score); ("grade", JStr grade);
        ("categories", JObj (map (fun cat => (name cat, json_of_category cat)) st))].

(** the exit status chosen at the end of [main] *)
Definition exit_code (score : Q) : nat :=
  if Qle_bool 95 score then 0
  else if Qle_bool 70 score then 1
  else 2.

(** [main] after argument parsing: the exit status, or the exception that
    ends the process ([json.dumps] and the output itself are not modelled;
    neither raises on the values built here). *)
Definition main (fmt_1f : Q -> string) (cfg : config)
    (descriptions : list (string * option string)) (snap : snapshot)
    (report_format_json : bool) : exn + nat :=
  match validate_all cfg snap with
  | inl e => inl e
  | inr (score, grade, st) =>
      if report_format_json then inr (exit_code score)
      else
        match snd (print_results fmt_1f cfg descriptions st score grade) with
        | Some e => inl e
        | None => inr (exit_code score)
        end
  end.

End Report.

(* ------------------------------------------------------------------ *)
(** ** Concrete configurations and project snapshots *)

Module Demo.

Definition grading : list (string * Q) :=
  [("A", 95%Q); ("B", 80%Q); ("C", 60%Q)].

Definition weights : list (string * option Z) :=
  [("hooks", Some 15%Z); ("documentation", Some 15%Z); ("testing", Some 15%Z);
   ("quality_gates", Some 15%Z); ("git", Some 10%Z); ("security", Some 15%Z);
   ("naming_conventions", Some 10%Z); ("migrations", Some 5%Z)].

(** rule parameters in the shape of rules-config.json, with each
    category's [enabled] flag chosen by the caller *)
Definition config_with (vc : option (list (string * option Z)))
    (hooks doc testing qg git sec naming mig : bool) : config :=
  mkConfig vc grading
    hooks ["lint"; "typecheck"] ["test"]
    doc ["Overview"; "Quick Start"] "docs/wip" ["README.md"; "CLAUDE.md"]
    testing true "vitest.config.ts" ["test"; "test:coverage"] true "playwright.config.ts"
    qg true ".eslintrc.cjs" true "tsconfig.json" true ".prettierrc" true "quality"
    git ["node_modules"; ".env.local"]
    sec ".env.local.example"
    naming ["_v2"; "_new"; "_enhanced"]
    mig.

(** only the git category enabled *)
Definition git_only (vc : option (list (string * option Z))) : config :=
  config_with vc false false false false true false false false.

(** every category enabled *)
Definition all_on : config :=
  config_with (Some weights) true true true true true true true true.

Definition ok_file (c : string) : entry := EFile (mkFile c true true).

Definition akia_file : entry := ok_file "const key = 'AKIAXXXXXXXX';".

(** a project whose only source files holding a secret are named with the
    literal brace pattern *)
Definition brace_snap : snapshot :=
  mkSnap [("src", EDir);
          ("src/a.{ts,tsx,js,jsx}", akia_file);
          ("src/b.{ts,tsx,js,jsx}", akia_file);
          ("src/c.ts", akia_file)].

(** a project with an ordinary TypeScript file holding a Stripe live key *)
Definition ts_snap : snapshot :=
  mkSnap [("src", EDir); ("src/a.ts", ok_file "const k = 'sk_live_123';")].

(** a CLAUDE.md that exists but is not valid text in the platform encoding *)
Definition bad_claude_snap : snapshot :=
  mkSnap [("CLAUDE.md", EFile (mkFile "## Overview" true false))].

(** a migration file that is not valid text in the platform encoding *)
Definition bad_migration_snap : snapshot :=
  mkSnap [("supabase", EDir); ("supabase/migrations", EDir);
          ("supabase/migrations/001_init.sql", ok_file "CREATE TABLE t ();");
          ("supabase/migrations/002_bad.sql", EFile (mkFile "CREATE TABLE u ();" true false))].

Definition gitignore_snap : snapshot :=
  mkSnap [(".gitignore", ok_file "node_modules/")].

End Demo.

(* ================================================================== *)
(** * Properties *)

Import Validator.

(** ** Specification-side vocabulary *)

Definition counters (cr : CategoryResult) : nat * nat * nat :=
  (checks_passed cr, checks_failed cr, checks_warned cr).

Definition counters_of (st : results_t) (c : string) : nat * nat * nat :=
  match find_cat st c with Some cr => counters cr | None => (0, 0, 0) end.

(** the category score of the spec:
    ((checks_passed + 0.5 * checks_warned) / total) * 100 *)
Definition score_formula (cr : CategoryResult) : Q :=
  ((inject_Z (Z.of_nat (checks_passed cr)) + (1#2) * inject_Z (Z.of_nat (checks_warned cr)))
   / inject_Z (Z.of_nat (cat_total cr)) * 100)%Q.

(** ** Lemmas on the results table *)

Section Table.

Variable f : CategoryResult -> CategoryResult.
Hypothesis f_name : forall cr, name (f cr) = name cr.

Lemma find_update_same (st : results_t) (c : string) :
  find_cat (update_cat st c f) c = option_map f (find_cat st c).
Proof.
  induction st as [|cr st IH]; simpl; [reflexivity|].
  destruct (String.eqb (name cr) c) eqn:E; simpl.
  - rewrite f_name, E. reflexivity.
  - rewrite E. exact IH.
Qed.

Lemma find_update_other (st : results_t) (c c' : string) :
  c <> c' -> find_cat (update_cat st c f) c' = find_cat st c'.
Proof.
  intros Hne. induction st as [|cr st IH]; simpl; [reflexivity|].
  destruct (String.eqb (name cr) c) eqn:E; simpl.
  - rewrite f_name. apply String.eqb_eq in E. subst c.
    destruct (String.eqb (name cr) c') eqn:E'; [|reflexivity].
    apply String.eqb_eq in E'. congruence.
  - destruct (String.eqb (name cr) c'); [reflexivity|exact IH].
Qed.

Lemma Forall_update (P : CategoryResult -> Prop) (st : results_t) (c : string) :
  (forall cr, name cr = c -> P cr -> P (f cr)) -> Forall P st -> Forall P (update_cat st c f).
Proof.
  intros Hf H. induction H as [|cr st Hcr Hst IH]; simpl; [constructor|].
  destruct (String.eqb (name cr) c) eqn:E; constructor; auto.
  apply Hf; [apply String.eqb_eq; exact E | exact Hcr].
Qed.

Lemma update_new (st : results_t) (c : string) (n : CategoryResult) :
  find_cat st c = None -> name n = c -> update_cat (app st [n]) c f = app st [f n].
Proof.
  intros Hnone Hn. induction st as [|cr st IH]; simpl in *.
  - rewrite Hn, String.eqb_refl. reflexivity.
  - destruct (String.eqb (name cr) c); [discriminate|]. rewrite IH by exact Hnone.
    reflexivity.
Qed.

End Table.

Lemma find_app_new (st : results_t) (c : string) (n : CategoryResult) :
  find_cat st c = None -> name n = c -> find_cat (app st [n]) c = Some n.
Proof.
  intros Hnone Hn. induction st as [|cr st IH]; simpl in *.
  - rewrite Hn, String.eqb_refl. reflexivity.
  - destruct (String.eqb (name cr) c); [discriminate|]. exact (IH Hnone).
Qed.

Lemma find_app_other (st : results_t) (c c' : string) (n : CategoryResult) :
  name n = c -> c <> c' -> find_cat (app st [n]) c' = find_cat st c'.
Proof.
  intros Hn Hne. induction st as [|cr st IH]; simpl.
  - destruct (String.eqb (name n) c') eqn:E; [|reflexivity].
    apply String.eqb_eq in E. congruence.
  - destruct (String.eqb (name cr) c'); [reflexivity|exact IH].
Qed.

Lemma tally_name (r : ValidationResult) (cr : CategoryResult) :
  name (tally r cr) = name cr.
Proof.
  unfold tally. destruct (passed r); [|destruct (String.eqb (severity r) "critical")];
    reflexivity.
Qed.

Lemma tally_counters (r : ValidationResult) (cr : CategoryResult) :
  counters (tally r cr) =
    (let '(p, f, w) := counters cr in
     if passed r then (S p, f, w)
     else if String.eqb (severity r) "critical" then (p, S f, w)
     else (p, f, S w)).
Proof.
  unfold tally, counters. destruct (passed r);
    [|destruct (String.eqb (severity r) "critical")]; reflexivity.
Qed.

(** ** C4: routing of one recorded outcome *)

(** C4: recording an outcome with [_add_result] increments exactly one
    counter of its category: [checks_passed] if it passed,
    [checks_failed] if it did not pass and its severity is "critical",
    and [checks_warned] otherwise (so a non-passing "info" outcome lands
    in [checks_warned] like a non-passing "warning"); the counters of
    every other category are unchanged. *)
Theorem add_result_routes_outcome (cfg : config) (st st' : results_t)
    (r : ValidationResult) :
  add_result_to cfg st r = inr st' ->
  counters_of st' (category r) =
    (let '(p, f, w) := counters_of st (category r) in
     if passed r then (S p, f, w)
     else if String.eqb (severity r) "critical" then (p, S f, w)
     else (p, f, S w))
  /\ (forall c, c <> category r -> counters_of st' c = counters_of st c).
Proof.
  unfold add_result_to. intros H.
  destruct (find_cat st (category r)) as [cr|] eqn:Ef.
  - injection H as <-. split.
    + unfold counters_of. rewrite (find_update_same _ (tally_name r)), Ef.
      simpl. apply tally_counters.
    + intros c Hc. unfold counters_of.
      rewrite (find_update_other _ (tally_name r)) by congruence. reflexivity.
  - destruct (category_weight cfg (category r)) as [e|w]; [discriminate|].
    injection H as <-.
    rewrite (update_new (tally r)) by (auto || reflexivity). split.
    + unfold counters_of. rewrite find_app_new by (auto || apply tally_name).
      rewrite Ef. apply tally_counters.
    + intros c Hc. unfold counters_of.
      rewrite find_app_other with (c := category r)
        by (auto || apply tally_name). reflexivity.
Qed.

(** the outcome of the example: a non-passing "info" outcome *)
Definition info_outcome : ValidationResult :=
  mkVR "git" "gitignore_has_node_modules" false "info" ".gitignore includes node_modules"
       (Some "Missing").

Lemma add_result_routes_outcome_witness :
  add_result_to (Demo.config_with (Some Demo.weights) false false false false true false false false)
                [] info_outcome
  = inr [mkCR "git" 10 0 0 1 0%Q [info_outcome]]
  /\ counters_of [mkCR "git" 10 0 0 1 0%Q [info_outcome]] "git" = (0, 0, 1).
Proof.
  assert (H : add_result_to (Demo.config_with (Some Demo.weights) false false false false true false false false)
                [] info_outcome = inr [mkCR "git" 10 0 0 1 0%Q [info_outcome]])
    by reflexivity.
  split; [exact H|].
  exact (proj1 (add_result_routes_outcome _ _ _ _ H)).
Defined.

(** ** Invariant of the results table built by a run *)

Section Invariant.

(** a property every recorded outcome has *)
Variable R : ValidationResult -> Prop.

(** every category in [self.results] still has its initial score, at
    least one counted outcome, and only outcomes of its own category *)
Definition table_inv (cr : CategoryResult) : Prop :=
  score cr = 0%Q /\ 0 < cat_total cr /\
  Forall (fun r => category r = name cr /\ R r) (results cr).

Lemma tally_inv (r : ValidationResult) (cr : CategoryResult) :
  name cr = category r -> R r ->
  score cr = 0%Q -> Forall (fun r => category r = name cr /\ R r) (results cr) ->
  table_inv (tally r cr).
Proof.
  intros Hn Hr Hs Hres. unfold table_inv, cat_total.
  assert (Hres' : Forall (fun r0 => category r0 = name cr /\ R r0) (app (results cr) [r]))
    by (apply Forall_app; split; [exact Hres | constructor; [split; auto | constructor]]).
  unfold tally. destruct (passed r); [|destruct (String.eqb (severity r) "critical")];
    simpl; (split; [exact Hs | split; [lia | exact Hres']]).
Qed.

Lemma add_result_inv (cfg : config) (st st' : results_t) (r : ValidationResult) :
  Forall table_inv st -> R r -> add_result_to cfg st r = inr st' -> Forall table_inv st'.
Proof.
  intros Hst Hr H. unfold add_result_to in H.
  destruct (find_cat st (category r)) as [cr|] eqn:Ef.
  - injection H as <-. apply Forall_update; [|exact Hst].
    intros cr0 Hn [Hs [_ Hres]]. apply tally_inv; auto.
  - destruct (category_weight cfg (category r)) as [e|w]; [discriminate|].
    injection H as <-. rewrite (update_new (tally r)) by (auto || reflexivity).
    apply Forall_app; split; [exact Hst|].
    constructor; [|constructor]. apply tally_inv; simpl; auto.
Qed.

Lemma add_all_inv (cfg : config) (rs : list ValidationResult) :
  forall st st', Forall table_inv st -> Forall R rs -> add_all cfg st rs = inr st' ->
  Forall table_inv st'.
Proof.
  induction rs as [|r rs IH]; simpl; intros st st' Hst Hrs H.
  - injection H as <-. exact Hst.
  - inversion Hrs as [|? ? Hr Hrs']; subst.
    destruct (add_result_to cfg st r) as [e|st1] eqn:E; [discriminate|].
    exact (IH st1 st' (add_result_inv cfg st st1 r Hst Hr E) Hrs' H).
Qed.

End Invariant.

(** ** The score loop of [validate_all] *)

(** what the loop does to one category *)
Definition rescore (cr : CategoryResult) : CategoryResult :=
  if Nat.ltb 0 (cat_total cr) then
    mkCR (name cr) (weight cr) (checks_passed cr) (checks_failed cr) (checks_warned cr)
         (((inject_Z (Z.of_nat (checks_passed cr))
            + inject_Z (Z.of_nat (checks_warned cr)) * (1#2))
           / inject_Z (Z.of_nat (cat_total cr))) * 100)%Q
         (results cr)
  else cr.

Definition included (st : results_t) : results_t :=
  filter (fun cr => Nat.ltb 0 (cat_total cr)) st.

Definition weight_sum (st : results_t) : Z :=
  fold_right (fun cr acc => (weight cr + acc)%Z) 0%Z (included st).

Definition weighted_sum (st : results_t) : Q :=
  fold_right (fun cr acc => (score_formula cr * inject_Z (weight cr) + acc)%Q) 0%Q
             (included st).

Lemma rescore_score (cr : CategoryResult) :
  0 < cat_total cr -> (score (rescore cr) == score_formula cr)%Q.
Proof.
  intros H. unfold rescore, score_formula.
  replace (Nat.ltb 0 (cat_total cr)) with true by (symmetry; apply Nat.ltb_lt; exact H).
  simpl. unfold Qdiv. ring.
Qed.

Lemma rescore_total (cr : CategoryResult) : cat_total (rescore cr) = cat_total cr.
Proof. unfold rescore. destruct (Nat.ltb 0 (cat_total cr)); reflexivity. Qed.

Lemma rescore_weight (cr : CategoryResult) : weight (rescore cr) = weight cr.
Proof. unfold rescore. destruct (Nat.ltb 0 (cat_total cr)); reflexivity. Qed.

Lemma rescore_formula (cr : CategoryResult) : score_formula (rescore cr) = score_formula cr.
Proof. unfold rescore. destruct (Nat.ltb 0 (cat_total cr)); reflexivity. Qed.

Lemma rescore_results (cr : CategoryResult) : results (rescore cr) = results cr.
Proof. unfold rescore. destruct (Nat.ltb 0 (cat_total cr)); reflexivity. Qed.

Lemma rescore_name (cr : CategoryResult) : name (rescore cr) = name cr.
Proof. unfold rescore. destruct (Nat.ltb 0 (cat_total cr)); reflexivity. Qed.

Lemma calculate_scores_spec (st : results_t) :
  forall ts tw st' ts' tw',
  calculate_scores st ts tw = (st', ts', tw') ->
  st' = map rescore st /\ tw' = (tw + weight_sum st)%Z /\ (ts' == ts + weighted_sum st)%Q.
Proof.
  unfold weight_sum, weighted_sum.
  induction st as [|cr st IH]; simpl; intros ts tw st' ts' tw' H.
  - injection H as <- <- <-. split; [reflexivity|]. split; [lia|]. ring.
  - destruct (Nat.ltb 0 (cat_total cr)) eqn:Et.
    + destruct (calculate_scores st _ _) as [[rest ts1] tw1] eqn:Ec.
      injection H as <- <- <-.
      destruct (IH _ _ _ _ _ Ec) as [-> [-> Hts]]. simpl.
      split; [unfold rescore; rewrite Et; reflexivity|]. split; [lia|].
      assert (Hs := rescore_score cr ltac:(apply Nat.ltb_lt; exact Et)).
      unfold rescore in Hs. rewrite Et in Hs. simpl in Hs.
      rewrite Hts, Hs. ring.
    + destruct (calculate_scores st ts tw) as [[rest ts1] tw1] eqn:Ec.
      injection H as <- <- <-.
      destruct (IH _ _ _ _ _ Ec) as [-> [-> Hts]]. simpl.
      split; [unfold rescore; rewrite Et; reflexivity|]. split; [lia|exact Hts].
Qed.

Lemma included_map_rescore (st : results_t) : included (map rescore st) = map rescore (included st).
Proof.
  induction st as [|cr st IH]; simpl; [reflexivity|].
  rewrite rescore_total. destruct (Nat.ltb 0 (cat_total cr)); simpl; rewrite IH; reflexivity.
Qed.

Lemma weight_sum_rescore (st : results_t) : weight_sum (map rescore st) = weight_sum st.
Proof.
  unfold weight_sum. rewrite included_map_rescore.
  induction (included st) as [|cr l IH]; simpl; [reflexivity|].
  rewrite IH, rescore_weight. reflexivity.
Qed.

Lemma weighted_sum_rescore (st : results_t) : weighted_sum (map rescore st) = weighted_sum st.
Proof.
  unfold weighted_sum. rewrite included_map_rescore.
  induction (included st) as [|cr l IH]; simpl; [reflexivity|].
  rewrite IH, rescore_weight, rescore_formula. reflexivity.
Qed.

(** ** Decomposition of a successful run *)

Lemma validate_all_ok (cfg : config) (snap : snapshot) (ov : Q) (g : string)
    (st : results_t) :
  validate_all cfg snap = inr (ov, g, st) ->
  exists st0 ts tw,
    add_all cfg [] (fst (run_evaluators cfg snap)) = inr st0 /\
    snd (run_evaluators cfg snap) = inr tt /\
    calculate_scores st0 0%Q 0%Z = (st, ts, tw) /\
    ov = overall_of ts tw /\
    g = determine_grade (compliance_grading cfg) ov.
Proof.
  unfold validate_all. destruct (run_evaluators cfg snap) as [emitted outcome]. simpl.
  destruct (add_all cfg [] emitted) as [e|st0]; [discriminate|].
  destruct outcome as [e|[]]; [discriminate|].
  destruct (calculate_scores st0 0%Q 0%Z) as [[st1 ts] tw] eqn:Ec.
  intros H. injection H as <- <- <-.
  exists st0, ts, tw. repeat split; auto.
Qed.

Lemma validate_all_table (cfg : config) (snap : snapshot) (ov : Q) (g : string)
    (st : results_t) (R : ValidationResult -> Prop) :
  Forall R (fst (run_evaluators cfg snap)) ->
  validate_all cfg snap = inr (ov, g, st) ->
  exists st0, st = map rescore st0 /\ Forall (table_inv R) st0 /\
              (ov == overall_of (weighted_sum st0) (weight_sum st0))%Q /\
              g = determine_grade (compliance_grading cfg) ov.
Proof.
  intros HR H.
  destruct (validate_all_ok _ _ _ _ _ H) as (st0 & ts & tw & Ha & _ & Hc & Hov & Hg).
  destruct (calculate_scores_spec _ _ _ _ _ _ Hc) as (-> & Htw & Hts).
  exists st0. split; [reflexivity|]. split.
  - exact (add_all_inv R cfg _ [] st0 (Forall_nil _) HR Ha).
  - split; [|exact Hg]. subst ov. unfold overall_of. rewrite Htw. simpl.
    destruct (Z.ltb 0 (weight_sum st0)); [|reflexivity].
    rewrite Hts. unfold Qdiv. ring.
Qed.

Lemma Forall_true {A} (l : list A) : Forall (fun _ => True) l.
Proof. induction l; constructor; auto. Qed.

(** ** C1: category score *)

(** C1: in the report of every run, each category's score is
    ((checks_passed + 0.5 * checks_warned) / total) * 100 where total is
    the number of its recorded outcomes, and 0 when that total is 0; a
    category with passed=3, warned=2, failed=1 scores 66.67 within 0.01. *)
Theorem category_score_formula (cfg : config) (snap : snapshot) (ov : Q) (g : string)
    (st : results_t) :
  validate_all cfg snap = inr (ov, g, st) ->
  Forall (fun cr => score cr == (if Nat.eqb (cat_total cr) 0 then 0 else score_formula cr))%Q st
  /\ match calculate_scores [mkCR "testing" 15 3 1 2 0%Q []] 0%Q 0%Z with
     | ([cr], _, _) => Qle_bool (Qabs (score cr - (6667 # 100))) (1 # 100) = true
     | _ => False
     end.
Proof.
  intros H. split; [|vm_compute; reflexivity].
  destruct (validate_all_table _ _ _ _ _ (fun _ => True) (Forall_true _) H)
    as (st0 & -> & Hinv & _).
  apply Forall_map. eapply Forall_impl; [|exact Hinv].
  intros cr [_ [Ht _]]. rewrite rescore_total.
  replace (Nat.eqb (cat_total cr) 0) with false by (symmetry; apply Nat.eqb_neq; lia).
  rewrite rescore_score by exact Ht. rewrite rescore_formula. reflexivity.
Qed.

Lemma category_score_formula_witness :
  exists ov g st,
    validate_all (Demo.git_only (Some Demo.weights)) Demo.gitignore_snap = inr (ov, g, st) /\
    (Forall (fun cr => score cr == (if Nat.eqb (cat_total cr) 0 then 0 else score_formula cr))%Q st
     /\ match calculate_scores [mkCR "testing" 15 3 1 2 0%Q []] 0%Q 0%Z with
        | ([cr], _, _) => Qle_bool (Qabs (score cr - (6667 # 100))) (1 # 100) = true
        | _ => False
        end).
Proof.
  eexists _, _, _. split; [vm_compute; reflexivity|].
  eapply (category_score_formula (Demo.git_only (Some Demo.weights)) Demo.gitignore_snap).
  vm_compute. reflexivity.
Defined.

(** ** C2: overall score *)

(** the overall score as the claim words it: 0 when the included weights
    sum to 0, their weighted mean otherwise *)
Definition claimed_overall (st : results_t) : Q :=
  if Z.eqb (weight_sum st) 0 then 0%Q
  else (weighted_sum st / inject_Z (weight_sum st))%Q.

(** a rules configuration giving the git category a negative weight *)
Definition negative_weight_config : config :=
  Demo.git_only (Some [("git", Some (-10)%Z)]).

(** C2 (counterexample): with a negative configured weight the included
    weights sum to -10, not 0, yet [validate_all] reports 0 rather than
    the weighted mean (83.33). *)
Lemma overall_score_negative_weight_counterexample :
  exists ov g st,
    validate_all negative_weight_config Demo.gitignore_snap = inr (ov, g, st) /\
    weight_sum st = (-10)%Z /\ ov = 0%Q /\ ~ (ov == claimed_overall st)%Q.
Proof.
  eexists _, _, _. split; [vm_compute; reflexivity|].
  split; [vm_compute; reflexivity|]. split; [reflexivity|].
  vm_compute. discriminate.
Qed.

(** C2 (amended): the overall score of every run is the weighted mean of
    the scores of the categories with at least one recorded outcome,
    weighted by their configured weights, when those weights sum to a
    positive number, and 0 otherwise (zero or negative sum); two included
    categories with weights 70 and 30 and scores 80 and 50 give 71. *)
Theorem overall_score_weighted_mean (cfg : config) (snap : snapshot) (ov : Q) (g : string)
    (st : results_t) :
  validate_all cfg snap = inr (ov, g, st) ->
  (ov == (if Z.ltb 0 (weight_sum st) then weighted_sum st / inject_Z (weight_sum st)
          else 0))%Q
  /\ match calculate_scores [mkCR "hooks" 70 4 1 0 0%Q []; mkCR "git" 30 1 1 0 0%Q []]
                            0%Q 0%Z with
     | ([cr1; cr2], ts, tw) =>
         (score cr1 == 80)%Q /\ (score cr2 == 50)%Q /\ (overall_of ts tw == 71)%Q
     | _ => False
     end.
Proof.
  intros H. split; [|vm_compute; repeat split; reflexivity].
  destruct (validate_all_table _ _ _ _ _ (fun _ => True) (Forall_true _) H)
    as (st0 & -> & _ & Hov & _).
  rewrite weight_sum_rescore, weighted_sum_rescore. exact Hov.
Qed.

Lemma overall_score_weighted_mean_witness :
  exists ov g st,
    validate_all Demo.all_on Demo.brace_snap = inr (ov, g, st) /\
    ((ov == (if Z.ltb 0 (weight_sum st) then weighted_sum st / inject_Z (weight_sum st)
             else 0))%Q
     /\ match calculate_scores [mkCR "hooks" 70 4 1 0 0%Q []; mkCR "git" 30 1 1 0 0%Q []]
                               0%Q 0%Z with
        | ([cr1; cr2], ts, tw) =>
            (score cr1 == 80)%Q /\ (score cr2 == 50)%Q /\ (overall_of ts tw == 71)%Q
        | _ => False
        end).
Proof.
  eexists _, _, _. split; [vm_compute; reflexivity|].
  eapply (overall_score_weighted_mean Demo.all_on Demo.brace_snap).
  vm_compute. reflexivity.
Defined.

(** ** C3: grade selection *)

(** [g] is the label of the first band, in list order, whose threshold
    [s] meets, or "F" when [s] meets none *)
Definition first_band (bands : list (string * Q)) (s : Q) (g : string) : Prop :=
  (exists pre l m post,
     bands = app pre ((l, m) :: post) /\
     Forall (fun b => (s < snd b)%Q) pre /\ (m <= s)%Q /\ g = l)
  \/ (Forall (fun b => (s < snd b)%Q) bands /\ g = "F").

Lemma determine_grade_first_band (bands : list (string * Q)) (s : Q) :
  first_band bands s (determine_grade bands s).
Proof.
  induction bands as [|[l m] bands IH]; simpl.
  - right. split; [constructor | reflexivity].
  - destruct (Qle_bool m s) eqn:E.
    + left. exists [], l, m, bands. split; [reflexivity|].
      split; [constructor|]. split; [apply Qle_bool_iff; exact E | reflexivity].
    + assert (Hlt : (s < m)%Q).
      { apply Qnot_le_lt. intros Hle. apply Qle_bool_iff in Hle. congruence. }
      destruct IH as [(pre & l' & m' & post & -> & Hpre & Hm & Hg) | [Hall Hg]].
      * left. exists ((l, m) :: pre), l', m', post. split; [reflexivity|].
        split; [constructor; assumption|]. split; assumption.
      * right. split; [constructor; assumption | exact Hg].
Qed.

Definition example_bands : list (string * Q) := [("A", 95%Q); ("B", 80%Q); ("C", 60%Q)].

(** C3: the grade of every run is the label of the first band of
    [compliance_grading], in configuration order, whose [min_percent] the
    overall score meets or exceeds, and "F" when it meets none; with bands
    A 95, B 80, C 60 in that order, 82 selects "B" and 40 selects "F". *)
Theorem grade_is_first_band (cfg : config) (snap : snapshot) (ov : Q) (g : string)
    (st : results_t) :
  validate_all cfg snap = inr (ov, g, st) ->
  first_band (compliance_grading cfg) ov g
  /\ determine_grade example_bands 82 = "B"
  /\ first_band example_bands 82 "B"
  /\ determine_grade example_bands 40 = "F"
  /\ first_band example_bands 40 "F".
Proof.
  intros H.
  destruct (validate_all_ok _ _ _ _ _ H) as (_ & _ & _ & _ & _ & _ & _ & Hg).
  split; [rewrite Hg; apply determine_grade_first_band|].
  assert (E82 : determine_grade example_bands 82 = "B") by reflexivity.
  assert (E40 : determine_grade example_bands 40 = "F") by reflexivity.
  split; [exact E82|]. split; [rewrite <- E82; apply determine_grade_first_band|].
  split; [exact E40|]. rewrite <- E40; apply determine_grade_first_band.
Qed.

Lemma grade_is_first_band_witness :
  exists ov g st,
    validate_all Demo.all_on Demo.gitignore_snap = inr (ov, g, st) /\
    (first_band (compliance_grading Demo.all_on) ov g
     /\ determine_grade example_bands 82 = "B"
     /\ first_band example_bands 82 "B"
     /\ determine_grade example_bands 40 = "F"
     /\ first_band example_bands 40 "F").
Proof.
  eexists _, _, _. split; [vm_compute; reflexivity|].
  eapply (grade_is_first_band Demo.all_on Demo.gitignore_snap).
  vm_compute. reflexivity.
Defined.

(** ** C5: categories without outcomes *)

(** the configuration with its [validation_categories] replaced *)
Definition with_weights (cfg : config) (vc : option (list (string * option Z))) : config :=
  mkConfig vc (compliance_grading cfg)
    (hooks_enabled cfg) (hooks_pre_commit_commands cfg) (hooks_pre_push_commands cfg)
    (documentation_enabled cfg) (documentation_required_claude_sections cfg)
    (documentation_wip_directory cfg) (documentation_allowed_root_files cfg)
    (testing_enabled cfg) (testing_vitest_required cfg) (testing_vitest_config_file cfg)
    (testing_vitest_required_scripts cfg) (testing_playwright_required_for_web cfg)
    (testing_playwright_config_file cfg)
    (quality_gates_enabled cfg) (quality_gates_eslint_required cfg)
    (quality_gates_eslint_config_file cfg) (quality_gates_typescript_required cfg)
    (quality_gates_typescript_config_file cfg) (quality_gates_prettier_required cfg)
    (quality_gates_prettier_config_file cfg) (quality_gates_quality_script_required cfg)
    (quality_gates_quality_script_name cfg)
    (git_enabled cfg) (git_gitignore_must_include cfg)
    (security_enabled cfg) (security_env_example_file_name cfg)
    (naming_conventions_enabled cfg) (naming_conventions_forbidden_suffixes cfg)
    (migrations_enabled_for_supabase cfg).

(** the outcomes a run records *)
Definition recorded (cfg : config) (snap : snapshot) : list ValidationResult :=
  fst (run_evaluators cfg snap).

Lemma run_evaluators_with_weights (cfg : config) (snap : snapshot) vc :
  run_evaluators (with_weights cfg vc) snap = run_evaluators cfg snap.
Proof. destruct cfg; reflexivity. Qed.

Lemma add_result_to_weights (cfg cfg' : config) (st : results_t) (r : ValidationResult) :
  category_weight cfg' (category r) = category_weight cfg (category r) ->
  add_result_to cfg' st r = add_result_to cfg st r.
Proof. intros H. unfold add_result_to. rewrite H. reflexivity. Qed.

Lemma add_all_weights (cfg cfg' : config) (rs : list ValidationResult) :
  (forall r, In r rs -> category_weight cfg' (category r) = category_weight cfg (category r)) ->
  forall st, add_all cfg' st rs = add_all cfg st rs.
Proof.
  induction rs as [|r rs IH]; simpl; intros H st; [reflexivity|].
  rewrite (add_result_to_weights cfg cfg') by (apply H; left; reflexivity).
  destruct (add_result_to cfg st r); [reflexivity|].
  apply IH. intros r' Hr'. apply H. right. exact Hr'.
Qed.

(** C5: a category with no recorded outcome never appears in the report
    (every reported category has at least one counted outcome), and
    changing the configured weight of categories without recorded
    outcomes (any change of [validation_categories] that keeps the weight
    of every category that does record outcomes) changes nothing in the
    run's result, in particular not the overall score. *)
Theorem zero_outcome_categories_excluded :
  (forall cfg snap ov g st,
     validate_all cfg snap = inr (ov, g, st) -> Forall (fun cr => 0 < cat_total cr) st)
  /\ (forall cfg snap vc,
        (forall r, In r (recorded cfg snap) ->
           category_weight (with_weights cfg vc) (category r) = category_weight cfg (category r)) ->
        validate_all (with_weights cfg vc) snap = validate_all cfg snap).
Proof.
  split.
  - intros cfg snap ov g st H.
    destruct (validate_all_table _ _ _ _ _ (fun _ => True) (Forall_true _) H)
      as (st0 & -> & Hinv & _).
    apply Forall_map. eapply Forall_impl; [|exact Hinv].
    intros cr [_ [Ht _]]. rewrite rescore_total. exact Ht.
  - intros cfg snap vc H. unfold recorded in H. unfold validate_all.
    rewrite run_evaluators_with_weights.
    destruct (run_evaluators cfg snap) as [emitted outcome]. simpl in H.
    rewrite (add_all_weights cfg (with_weights cfg vc) emitted H).
    destruct cfg; reflexivity.
Qed.

(** the run of [Demo.gitignore_snap] with only git enabled records git
    outcomes only; giving the (unrecorded) security category weight 1000
    leaves the result as it was *)
Definition heavier_security : option (list (string * option Z)) :=
  Some (("security", Some 1000%Z) :: Demo.weights).

Lemma zero_outcome_categories_excluded_witness :
  (exists ov g st,
     validate_all (Demo.git_only (Some Demo.weights)) Demo.gitignore_snap = inr (ov, g, st)
     /\ Forall (fun cr => 0 < cat_total cr) st)
  /\ validate_all (with_weights (Demo.git_only (Some Demo.weights)) heavier_security)
                  Demo.gitignore_snap
     = validate_all (Demo.git_only (Some Demo.weights)) Demo.gitignore_snap.
Proof.
  split.
  - eexists _, _, _. split; [vm_compute; reflexivity|].
    eapply (proj1 zero_outcome_categories_excluded
              (Demo.git_only (Some Demo.weights)) Demo.gitignore_snap).
    vm_compute. reflexivity.
  - apply (proj2 zero_outcome_categories_excluded).
    intros r Hr. vm_compute in Hr.
    repeat (destruct Hr as [<- | Hr]; [reflexivity|]). destruct Hr.
Defined.

(** ** C6: a category without a weight entry *)

Definition no_weight_config : config := Demo.git_only (Some []).

(** C6 (counterexample): a configuration whose [validation_categories]
    has no entry for "git", while git records outcomes, still produces a
    score; git is scored with weight 10. *)
Lemma missing_weight_counterexample :
  exists ov g st,
    validate_all no_weight_config Demo.gitignore_snap = inr (ov, g, st) /\
    option_map weight (find_cat st "git") = Some 10%Z.
Proof.
  eexists _, _, _. split; [vm_compute; reflexivity|]. reflexivity.
Qed.

(** C6 (amended): when [validation_categories] is present, [_add_result]
    never fails; a category recorded for the first time whose entry is
    missing, or has no ['weight'], gets weight 10; only a missing
    [validation_categories] key makes the first recorded outcome of a run
    raise [KeyError]. *)
Theorem missing_weight_defaults_to_10 :
  (forall cfg vc st r,
     validation_categories cfg = Some vc ->
     find_cat st (category r) = None ->
     assoc vc (category r) = None \/ assoc vc (category r) = Some None ->
     exists st', add_result_to cfg st r = inr st' /\
                 option_map weight (find_cat st' (category r)) = Some 10%Z)
  /\ (forall cfg vc rs st,
        validation_categories cfg = Some vc -> exists st', add_all cfg st rs = inr st')
  /\ (forall cfg r rs,
        validation_categories cfg = None ->
        add_all cfg [] (r :: rs) = inl (KeyError "validation_categories")).
Proof.
  split; [|split].
  - intros cfg vc st r Hvc Hf Ha. unfold add_result_to, category_weight.
    rewrite Hf, Hvc.
    assert (Hw : match assoc vc (category r) with Some (Some w) => inr w | _ => inr 10%Z end
                 = (inr 10%Z : exn + Z))
      by (destruct Ha as [-> | ->]; reflexivity).
    rewrite Hw. eexists. split; [reflexivity|].
    rewrite (update_new (tally r)) by (auto || reflexivity).
    rewrite find_app_new by (auto || apply tally_name). simpl.
    unfold tally. destruct (passed r); [|destruct (String.eqb (severity r) "critical")];
      reflexivity.
  - intros cfg vc rs. induction rs as [|r rs IH]; simpl; intros st Hvc.
    + eexists; reflexivity.
    + unfold add_result_to at 1, category_weight at 1. rewrite Hvc.
      destruct (find_cat st (category r)).
      * apply IH; exact Hvc.
      * destruct (assoc vc (category r)) as [[w|]|]; apply IH; exact Hvc.
  - intros cfg r rs Hvc. simpl. unfold add_result_to, category_weight.
    rewrite Hvc. reflexivity.
Qed.

Definition example_outcome : ValidationResult :=
  mkVR "git" "gitignore_exists" true "critical" ".gitignore file exists" (Some "Found").

Lemma missing_weight_defaults_to_10_witness :
  (exists st', add_result_to no_weight_config [] example_outcome = inr st' /\
               option_map weight (find_cat st' "git") = Some 10%Z)
  /\ (exists st', add_all no_weight_config [] [example_outcome; info_outcome] = inr st')
  /\ add_all (Demo.git_only None) [] [example_outcome]
     = inl (KeyError "validation_categories").
Proof.
  split; [|split].
  - apply (proj1 missing_weight_defaults_to_10 no_weight_config [] [] example_outcome);
      [reflexivity | reflexivity | left; reflexivity].
  - apply (proj1 (proj2 missing_weight_defaults_to_10) no_weight_config []); reflexivity.
  - apply (proj2 (proj2 missing_weight_defaults_to_10)). reflexivity.
Defined.

(** ** Lemmas on the evaluator monad *)

Lemma bind_ok {A B} (m : Eval A) (f : A -> Eval B) (b : B) :
  snd (bind m f) = inr b ->
  exists a, snd m = inr a /\ snd (f a) = inr b /\ fst (bind m f) = app (fst m) (fst (f a)).
Proof.
  destruct m as [l [e|a]]; simpl; [discriminate|].
  destruct (f a) as [l' r] eqn:E; simpl. intros ->. exists a. rewrite E. auto.
Qed.

Lemma In_bind {A B} (m : Eval A) (f : A -> Eval B) (r : ValidationResult) :
  In r (fst (bind m f)) -> In r (fst m) \/ exists a, snd m = inr a /\ In r (fst (f a)).
Proof.
  destruct m as [l [e|a]]; simpl; [auto|].
  destruct (f a) as [l' x] eqn:E; simpl. intros H. apply in_app_or in H.
  destruct H as [H|H]; [left; exact H|]. right. exists a. rewrite E. auto.
Qed.

Lemma for_ok {X} (l : list X) (body : X -> Eval unit) :
  snd (for_ l body) = inr tt ->
  fst (for_ l body) = flat_map (fun x => fst (body x)) l /\
  (forall x, In x l -> snd (body x) = inr tt).
Proof.
  induction l as [|x l IH]; simpl; intros H.
  - split; [reflexivity | intros _ []].
  - destruct (bind_ok _ _ _ H) as ([] & Hx & Hl & Hfst).
    destruct (IH Hl) as [Hf Hall]. rewrite Hfst, Hf. split; [reflexivity|].
    intros y [<- | Hy]; [exact Hx | exact (Hall y Hy)].
Qed.

Lemma In_for {X} (l : list X) (body : X -> Eval unit) (r : ValidationResult) :
  In r (fst (for_ l body)) -> exists x, In x l /\ In r (fst (body x)).
Proof.
  induction l as [|x l IH]; simpl; [intros []|].
  intros H. destruct (In_bind _ _ _ H) as [H1 | ([] & _ & H2)].
  - exists x. auto.
  - destruct (IH H2) as (y & Hy & Hr). exists y. auto.
Qed.

(** ** C7: the secret scan *)

(** the files the secret scan of [validate_security] reads, in order *)
Definition secret_scan_files (snap : snapshot) : list string :=
  flat_map (fun dir_name =>
              if FS.exists_ snap dir_name && FS.is_dir snap dir_name
              then FS.rglob snap dir_name secret_glob else [])
           security_source_dirs.

Definition matches_pattern (content : string) : bool :=
  existsb (fun '(pattern, _) => Py.contains pattern content) dangerous_patterns.

(** a scanned file whose text holds a forbidden pattern *)
Definition has_secret (snap : snapshot) (p : string) : bool :=
  match FS.read_text_ignore snap p with
  | inr c => matches_pattern c
  | inl _ => false
  end.

Definition is_secret_check (r : ValidationResult) : bool :=
  String.eqb (check_name r) "no_hardcoded_secrets".

Definition critical_failure (r : ValidationResult) : Prop :=
  passed r = false /\ severity r = "critical".

Lemma scan_patterns_spec (fp c : string) (pats : list (string * string)) :
  snd (scan_patterns fp c pats) = inr tt /\
  map details (filter is_secret_check (fst (scan_patterns fp c pats)))
    = (if existsb (fun '(pattern, _) => Py.contains pattern c) pats
       then [Some ("Found in " ++ fp)] else []) /\
  Forall (fun r => is_secret_check r = true /\ critical_failure r)
         (fst (scan_patterns fp c pats)).
Proof.
  induction pats as [|[pattern pname] pats IH]; simpl.
  - split; [reflexivity|]. split; [reflexivity | constructor].
  - destruct (Py.contains pattern c); simpl.
    + split; [reflexivity|]. split; [reflexivity|].
      constructor; [|constructor]. split; [reflexivity|]. split; reflexivity.
    + exact IH.
Qed.

Lemma for_cons {X} (x : X) (l : list X) (body : X -> Eval unit) :
  for_ (x :: l) body = bind (body x) (fun _ => for_ l body).
Proof. reflexivity. Qed.

Lemma scan_file_ok (snap : snapshot) (fp : string) :
  snd (scan_file snap fp) = inr tt ->
  exists c, FS.read_text_ignore snap fp = inr c /\
            fst (scan_file snap fp) = fst (scan_patterns fp c dangerous_patterns).
Proof.
  unfold scan_file. intros H.
  destruct (bind_ok _ _ _ H) as (c & Hc & _ & ->). exists c. split; [exact Hc | reflexivity].
Qed.

Lemma scan_files_spec (snap : snapshot) (files : list string) :
  snd (for_ files (scan_file snap)) = inr tt ->
  map details (filter is_secret_check (fst (for_ files (scan_file snap))))
    = map (fun p => Some ("Found in " ++ p)) (filter (has_secret snap) files) /\
  Forall (fun r => is_secret_check r = true /\ critical_failure r)
         (fst (for_ files (scan_file snap))).
Proof.
  induction files as [|fp files IH]; intros H.
  - split; [reflexivity | constructor].
  - rewrite for_cons in H |- *.
    destruct (bind_ok _ _ _ H) as ([] & Hfp & Hrest & ->).
    destruct (IH Hrest) as [IHd IHc].
    destruct (scan_file_ok _ _ Hfp) as (c & Hread & ->).
    destruct (scan_patterns_spec fp c dangerous_patterns) as (_ & Hd & Hcr).
    cbn [filter].
    rewrite filter_app, map_app, IHd, Hd. replace (has_secret snap fp) with (matches_pattern c)
      by (unfold has_secret; rewrite Hread; reflexivity).
    split.
    + unfold matches_pattern. destruct (existsb _ _); reflexivity.
    + apply Forall_app. split; [exact Hcr | exact IHc].
Qed.

Lemma scan_dirs_spec (snap : snapshot) (ds : list string) :
  (forall d, In d ds -> snd (scan_dir snap d) = inr tt) ->
  map details (filter is_secret_check (flat_map (fun d => fst (scan_dir snap d)) ds))
    = map (fun p => Some ("Found in " ++ p))
          (filter (has_secret snap)
             (flat_map (fun d => if FS.exists_ snap d && FS.is_dir snap d
                                 then FS.rglob snap d secret_glob else []) ds)) /\
  Forall (fun r => is_secret_check r = true /\ critical_failure r)
         (flat_map (fun d => fst (scan_dir snap d)) ds).
Proof.
  induction ds as [|d ds IH]; intros H; [split; [reflexivity | constructor]|].
  cbn [flat_map]. rewrite !filter_app, !map_app.
  destruct IH as [IHd IHc]; [intros d' Hd'; apply H; right; exact Hd'|].
  rewrite IHd. assert (Hd := H d (or_introl eq_refl)). unfold scan_dir in Hd |- *.
  destruct (FS.exists_ snap d && FS.is_dir snap d).
  - destruct (scan_files_spec snap _ Hd) as [Hm Hc]. rewrite Hm.
    split; [reflexivity|]. apply Forall_app. split; assumption.
  - split; [reflexivity | exact IHc].
Qed.

Lemma Forall_filter_secret (l : list ValidationResult) :
  Forall (fun r => is_secret_check r = true /\ critical_failure r) l ->
  Forall critical_failure (filter is_secret_check l).
Proof.
  induction 1 as [|r l [Hr Hcr] _ IH]; [constructor|].
  cbn [filter]. rewrite Hr. constructor; assumption.
Qed.

(** C7 (counterexample): two scanned files holding a secret give two
    failing no_hardcoded_secrets outcomes in one scan. *)
Lemma secret_scan_counterexample :
  List.length (filter is_secret_check (fst (validate_security Demo.all_on Demo.brace_snap)))
  = 2.
Proof. vm_compute. reflexivity. Qed.

(** C7 (amended): a completed secret scan records, for each scanned file
    whose text holds a forbidden pattern and in scan order, exactly one
    failing critical no_hardcoded_secrets outcome whose details name that
    file ("Found in <path>"), however many patterns or lines match; the
    outcomes are neither merged into one nor capped.  So a secret found in
    exactly one scanned file yields exactly one such outcome. *)
Theorem secret_scan_one_outcome_per_file (cfg : config) (snap : snapshot) :
  security_enabled cfg = true ->
  snd (validate_security cfg snap) = inr tt ->
  map details (filter is_secret_check (fst (validate_security cfg snap)))
    = map (fun p => Some ("Found in " ++ p)) (filter (has_secret snap) (secret_scan_files snap))
  /\ List.length (filter is_secret_check (fst (validate_security cfg snap)))
     = List.length (filter (has_secret snap) (secret_scan_files snap))
  /\ Forall critical_failure (filter is_secret_check (fst (validate_security cfg snap))).
Proof.
  intros Hen H. unfold validate_security in H |- *. rewrite Hen in H |- *. cbn [negb] in H |- *.
  destruct (bind_ok _ _ _ H) as ([] & _ & Hdirs & ->).
  destruct (for_ok _ _ Hdirs) as [Hf Hall]. rewrite Hf.
  destruct (scan_dirs_spec snap security_source_dirs Hall) as [Hm Hc].
  assert (Henv : forall r, check_name r = "env_example_exists" -> is_secret_check r = false)
    by (intros r Hr; unfold is_secret_check; rewrite Hr; reflexivity).
  cbn [fst add_result app filter]. rewrite Henv by reflexivity. rewrite Hm. unfold secret_scan_files.
  split; [reflexivity|]. split.
  - rewrite <- (length_map details), Hm. apply length_map.
  - apply Forall_filter_secret. exact Hc.
Qed.

(** one scanned file holding a secret *)
Definition one_secret_snap : snapshot :=
  mkSnap [("src", EDir); ("src/keys.{ts,tsx,js,jsx}", Demo.akia_file)].

Lemma secret_scan_one_outcome_per_file_witness :
  List.length (filter is_secret_check (fst (validate_security Demo.all_on one_secret_snap)))
  = List.length (filter (has_secret one_secret_snap) (secret_scan_files one_secret_snap))
  /\ List.length (filter (has_secret one_secret_snap) (secret_scan_files one_secret_snap)) = 1.
Proof.
  split; [|vm_compute; reflexivity].
  apply (secret_scan_one_outcome_per_file Demo.all_on one_secret_snap);
    vm_compute; reflexivity.
Defined.

(** ** C10: which files the secret scan reads *)


Lemma str_append_assoc (a b c : string) : (a ++ b) ++ c = a ++ (b ++ c).
Proof. induction a as [|x a IH]; simpl; [reflexivity | rewrite IH; reflexivity]. Qed.

Lemma str_append_nil (a : string) : a ++ EmptyString = a.
Proof. induction a as [|x a IH]; simpl; [reflexivity | rewrite IH; reflexivity]. Qed.

Lemma rev_str_app (a b : string) : Py.rev_str (a ++ b) = Py.rev_str b ++ Py.rev_str a.
Proof.
  induction a as [|x a IH]; simpl.
  - rewrite str_append_nil. reflexivity.
  - rewrite IH, str_append_assoc. reflexivity.
Qed.

Lemma prefix_app (a b : string) : prefix a (a ++ b) = true.
Proof.
  induction a as [|x a IH]; simpl; [destruct b; reflexivity|].
  destruct (ascii_dec x x); [exact IH | contradiction].
Qed.

Lemma endswith_app (pre lit : string) : Py.endswith (pre ++ lit) lit = true.
Proof. unfold Py.endswith. rewrite rev_str_app. apply prefix_app. Qed.

(** a pattern without [*] or [?] *)
Fixpoint no_wild (pat : string) : bool :=
  match pat with
  | EmptyString => true
  | String c pat' =>
      negb (Ascii.eqb c "*") && negb (Ascii.eqb c "?") && no_wild pat'
  end.

Lemma fnmatch_literal (lit : string) :
  no_wild lit = true -> forall n, Py.fnmatch lit n = true -> n = lit.
Proof.
  induction lit as [|c lit IH]; intros Hw n H.
  - destruct n; [reflexivity | discriminate].
  - simpl in Hw. apply andb_prop in Hw as [Hw Hrest]. apply andb_prop in Hw as [Hs Hq].
    apply negb_true_iff in Hs, Hq.
    simpl in H. rewrite Hs, Hq in H.
    destruct n as [|d n]; [discriminate|].
    apply andb_prop in H as [Hcd Hn]. apply Ascii.eqb_eq in Hcd. subst d.
    rewrite (IH Hrest n Hn). reflexivity.
Qed.

Lemma fnmatch_star_literal (lit : string) :
  no_wild lit = true -> forall n, Py.fnmatch (String "*" lit) n = true ->
  exists pre, n = pre ++ lit.
Proof.
  intros Hw n H. simpl in H. revert H.
  induction n as [|d n IH]; intros H.
  - exists EmptyString. simpl. apply orb_prop in H as [H|H]; [|discriminate].
    exact (fnmatch_literal lit Hw _ H).
  - apply orb_prop in H as [H|H].
    + exists EmptyString. exact (fnmatch_literal lit Hw _ H).
    + destruct (IH H) as [pre ->]. exists (String d pre). reflexivity.
Qed.

Definition secret_suffix : string := ".{ts,tsx,js,jsx}".

Lemma secret_glob_endswith (n : string) :
  Py.fnmatch secret_glob n = true -> Py.endswith n secret_suffix = true.
Proof.
  intros H. destruct (fnmatch_star_literal secret_suffix eq_refl n H) as [pre ->].
  apply endswith_app.
Qed.

Lemma In_rglob (snap : snapshot) (d pat p : string) :
  In p (FS.rglob snap d pat) -> Py.fnmatch pat (FS.basename p) = true.
Proof.
  unfold FS.rglob. intros H. apply in_map_iff in H as ([q e] & <- & Hin).
  apply filter_In in Hin as [_ Hf]. apply andb_prop in Hf as [_ Hf]. exact Hf.
Qed.

Lemma secret_scan_files_suffix (snap : snapshot) (p : string) :
  In p (secret_scan_files snap) -> Py.endswith (FS.basename p) secret_suffix = true.
Proof.
  unfold secret_scan_files. intros H. apply in_flat_map in H as (d & _ & Hp).
  destruct (FS.exists_ snap d && FS.is_dir snap d); [|destruct Hp].
  apply secret_glob_endswith. exact (In_rglob _ _ _ _ Hp).
Qed.

(** the snapshot with the file data at path [p] changed by [g]
    (directories and all other paths untouched) *)
Definition update_entry (p q : string) (g : file_data -> file_data) (e : entry) : entry :=
  if String.eqb q p then match e with EFile d => EFile (g d) | EDir => EDir end else e.

Definition update_file (snap : snapshot) (p : string) (g : file_data -> file_data) : snapshot :=
  mkSnap (map (fun '(q, e) => (q, update_entry p q g e)) (entries snap)).

Lemma lookup_update (l : list (string * entry)) (p q : string) g :
  FS.lookup (map (fun '(q', e) => (q', update_entry p q' g e)) l) q
  = option_map (update_entry p q g) (FS.lookup l q).
Proof.
  induction l as [|[q' e] l IH]; simpl; [reflexivity|].
  destruct (String.eqb q q') eqn:E; [|exact IH].
  apply String.eqb_eq in E. subst q'. reflexivity.
Qed.

Lemma exists_update (snap : snapshot) p g q :
  FS.exists_ (update_file snap p g) q = FS.exists_ snap q.
Proof.
  unfold FS.exists_, update_file. simpl. rewrite lookup_update.
  destruct (FS.lookup (entries snap) q); reflexivity.
Qed.

Lemma is_dir_update (snap : snapshot) p g q :
  FS.is_dir (update_file snap p g) q = FS.is_dir snap q.
Proof.
  unfold FS.is_dir, update_file. simpl. rewrite lookup_update.
  destruct (FS.lookup (entries snap) q) as [[|d]|]; simpl; [|unfold update_entry|reflexivity].
  - unfold update_entry. destruct (String.eqb q p); reflexivity.
  - destruct (String.eqb q p); reflexivity.
Qed.

Lemma read_ignore_update_other (snap : snapshot) p g q :
  q <> p -> FS.read_text_ignore (update_file snap p g) q = FS.read_text_ignore snap q.
Proof.
  intros Hne. unfold FS.read_text_ignore, update_file. simpl. rewrite lookup_update.
  unfold update_entry. replace (String.eqb q p) with false
    by (symmetry; apply String.eqb_neq; exact Hne).
  destruct (FS.lookup (entries snap) q); reflexivity.
Qed.

Lemma rglob_update (snap : snapshot) p g d pat :
  FS.rglob (update_file snap p g) d pat = FS.rglob snap d pat.
Proof.
  unfold FS.rglob, update_file. simpl.
  induction (entries snap) as [|[q e] l IH]; simpl; [reflexivity|].
  destruct (prefix (d ++ "/") q && Py.fnmatch pat (FS.basename q)); simpl;
    rewrite IH; reflexivity.
Qed.

Lemma for_ext {X} (l : list X) (b1 b2 : X -> Eval unit) :
  (forall x, In x l -> b1 x = b2 x) -> for_ l b1 = for_ l b2.
Proof.
  induction l as [|x l IH]; intros H; simpl; [reflexivity|].
  rewrite (H x (or_introl eq_refl)), IH; [reflexivity|].
  intros y Hy. apply H. right. exact Hy.
Qed.

Lemma validate_security_update (cfg : config) (snap : snapshot) (p : string) g :
  Py.endswith (FS.basename p) secret_suffix = false ->
  validate_security cfg (update_file snap p g) = validate_security cfg snap.
Proof.
  intros Hp. unfold validate_security, file_exists. rewrite exists_update.
  destruct (negb (security_enabled cfg)); [reflexivity|].
  assert (E : for_ security_source_dirs (scan_dir (update_file snap p g))
              = for_ security_source_dirs (scan_dir snap)).
  { apply for_ext. intros d _. unfold scan_dir.
    rewrite exists_update, is_dir_update, rglob_update.
    destruct (FS.exists_ snap d && FS.is_dir snap d); [|reflexivity].
    apply for_ext. intros q Hq. unfold scan_file.
    rewrite read_ignore_update_other; [reflexivity|].
    intros ->. apply In_rglob, secret_glob_endswith in Hq. congruence. }
  rewrite E. reflexivity.
Qed.

Lemma scan_patterns_details (fp c : string) pats r :
  In r (fst (scan_patterns fp c pats)) -> details r = Some ("Found in " ++ fp).
Proof.
  induction pats as [|[pattern pname] pats IH]; simpl; [intros []|].
  destruct (Py.contains pattern c); [|exact IH].
  intros [<- | []]. reflexivity.
Qed.

Lemma secret_outcome_file (cfg : config) (snap : snapshot) (r : ValidationResult) :
  In r (fst (validate_security cfg snap)) -> check_name r = "no_hardcoded_secrets" ->
  exists q, details r = Some ("Found in " ++ q) /\ In q (secret_scan_files snap).
Proof.
  intros H Hn. unfold validate_security in H.
  destruct (negb (security_enabled cfg)); [destruct H|].
  apply In_bind in H as [H | ([] & _ & H)].
  - destruct H as [<- | []]. discriminate.
  - apply In_for in H as (d & Hd & H). unfold scan_dir in H.
    destruct (FS.exists_ snap d && FS.is_dir snap d) eqn:Edir; [|destruct H].
    apply In_for in H as (q & Hq & H). unfold scan_file in H.
    apply In_bind in H as [[] | (c & _ & H)].
    exists q. split; [exact (scan_patterns_details _ _ _ _ H)|].
    unfold secret_scan_files. apply in_flat_map. exists d. rewrite Edir. auto.
Qed.

(** C10: the hardcoded-secret scan reads only files whose name ends with
    the literal ".{ts,tsx,js,jsx}" (the pattern passed to [rglob] is not
    brace-expanded); a file whose name does not end so, such as an
    ordinary .ts, .tsx, .js or .jsx file, is never read: changing its data
    in any way (text, readability) leaves the scan's outcomes unchanged;
    and every no_hardcoded_secrets outcome names a scanned file. *)
Theorem secret_scan_reads_literal_brace_names :
  (forall snap p, In p (secret_scan_files snap) ->
     Py.endswith (FS.basename p) ".{ts,tsx,js,jsx}" = true)
  /\ (forall cfg snap p g,
        Py.endswith (FS.basename p) ".{ts,tsx,js,jsx}" = false ->
        validate_security cfg (update_file snap p g) = validate_security cfg snap)
  /\ (forall cfg snap r,
        In r (fst (validate_security cfg snap)) -> check_name r = "no_hardcoded_secrets" ->
        exists q, details r = Some ("Found in " ++ q) /\ In q (secret_scan_files snap) /\
                  Py.endswith (FS.basename q) ".{ts,tsx,js,jsx}" = true).
Proof.
  split; [|split].
  - exact secret_scan_files_suffix.
  - exact validate_security_update.
  - intros cfg snap r Hr Hn.
    destruct (secret_outcome_file cfg snap r Hr Hn) as (q & Hd & Hq).
    exists q. split; [exact Hd|]. split; [exact Hq|].
    exact (secret_scan_files_suffix snap q Hq).
Qed.

(** an unreadable, secret-free version of the file *)
Definition scrub (_ : file_data) : file_data := mkFile EmptyString false false.

Lemma secret_scan_reads_literal_brace_names_witness :
  Py.endswith (FS.basename "src/keys.{ts,tsx,js,jsx}") ".{ts,tsx,js,jsx}" = true
  /\ validate_security Demo.all_on (update_file Demo.ts_snap "src/a.ts" scrub)
     = validate_security Demo.all_on Demo.ts_snap
  /\ (exists q, details (mkVR "security" "no_hardcoded_secrets" false "critical"
                          "Potential AWS access key hardcoded"
                          (Some "Found in src/keys.{ts,tsx,js,jsx}"))
                = Some ("Found in " ++ q)
                /\ In q (secret_scan_files one_secret_snap)
                /\ Py.endswith (FS.basename q) ".{ts,tsx,js,jsx}" = true).
Proof.
  split; [|split].
  - apply (proj1 secret_scan_reads_literal_brace_names one_secret_snap).
    vm_compute. left. reflexivity.
  - apply (proj1 (proj2 secret_scan_reads_literal_brace_names)).
    vm_compute. reflexivity.
  - apply (proj2 (proj2 secret_scan_reads_literal_brace_names) Demo.all_on).
    + vm_compute. right. left. reflexivity.
    + reflexivity.
Defined.

(** ** C9: unreadable or undecodable files *)

(** a scanned source file that cannot be opened *)
Definition locked_source_snap : snapshot :=
  mkSnap [("src", EDir);
          ("src/locked.{ts,tsx,js,jsx}", EFile (mkFile "const a = 1;" false true))].

(** C9 (code defect): a file that cannot be read aborts the whole run
    with an exception instead of being skipped: an undecodable CLAUDE.md
    ([_read_file] returns None, and [f'## {section}' in None] raises
    TypeError), an undecodable migration file ([read_text()] without a
    handler raises UnicodeDecodeError), and an unreadable scanned source
    file ([read_text(errors='ignore')] still raises PermissionError);
    meanwhile the sibling helper [_read_file] does swallow the same
    decoding failure. *)
Theorem unreadable_file_aborts_run :
  validate_all Demo.all_on Demo.bad_claude_snap = inl TypeError
  /\ validate_all Demo.all_on Demo.bad_migration_snap = inl UnicodeDecodeError
  /\ validate_all Demo.all_on locked_source_snap = inl PermissionError
  /\ read_file Demo.bad_claude_snap "CLAUDE.md" = None.
Proof. vm_compute. repeat split. Qed.

(** ** C8: check names and severities *)

(** the severity each check definition of the evaluators carries, by
    category and check name *)
Definition expected_severity (cat check : string) : string :=
  if String.eqb cat "hooks" then
    if String.eqb check "lefthook_config_exists" then "critical" else "warning"
  else if String.eqb cat "documentation" then
    if String.eqb check "claude_md_exists" || String.eqb check "no_forbidden_root_md"
    then "critical"
    else if String.eqb check "wip_directory_exists" then "info" else "warning"
  else if String.eqb cat "testing" then
    if String.eqb check "vitest_config_exists" then "critical"
    else if String.eqb check "playwright_config_exists" then "info" else "warning"
  else if String.eqb cat "quality_gates" then
    if String.eqb check "eslint_config_exists" || String.eqb check "typescript_config_exists"
    then "critical" else "warning"
  else if String.eqb cat "git" then
    if String.eqb check "gitignore_exists" then "critical" else "info"
  else if String.eqb cat "security" then
    if String.eqb check "env_example_exists" then "warning" else "critical"
  else "critical".

Definition sev_ok (r : ValidationResult) : Prop :=
  severity r = expected_severity (category r) (check_name r).

Lemma Forall_ret {A} (P : ValidationResult -> Prop) (a : A) : Forall P (fst (ret a)).
Proof. constructor. Qed.

Lemma Forall_lift {A} (P : ValidationResult -> Prop) (x : exn + A) : Forall P (fst (lift x)).
Proof. constructor. Qed.

Lemma Forall_add (P : ValidationResult -> Prop) (r : ValidationResult) :
  P r -> Forall P (fst (add_result r)).
Proof. intros H. constructor; [exact H | constructor]. Qed.

Lemma Forall_bind {A B} (P : ValidationResult -> Prop) (m : Eval A) (f : A -> Eval B) :
  Forall P (fst m) -> (forall a, Forall P (fst (f a))) -> Forall P (fst (bind m f)).
Proof.
  destruct m as [l [e|a]]; simpl; intros Hm Hf; [exact Hm|].
  specialize (Hf a). destruct (f a) as [l' x]. simpl in *.
  apply Forall_app. split; assumption.
Qed.

Lemma Forall_for {X} (P : ValidationResult -> Prop) (l : list X) (body : X -> Eval unit) :
  (forall x, Forall P (fst (body x))) -> Forall P (fst (for_ l body)).
Proof.
  intros H. induction l as [|x l IH]; simpl; [constructor|].
  apply Forall_bind; [apply H | intros _; exact IH].
Qed.

Lemma Forall_scan_patterns (fp c : string) (pats : list (string * string)) :
  Forall sev_ok (fst (scan_patterns fp c pats)).
Proof.
  induction pats as [|[pattern pname] pats IH]; simpl; [constructor|].
  destruct (Py.contains pattern c); [|exact IH].
  apply Forall_add. reflexivity.
Qed.

Ltac sev_steps :=
  repeat match goal with
  | |- Forall _ (fst (bind _ _)) => apply Forall_bind; [|intros ?]
  | |- Forall _ (fst (ret _)) => apply Forall_ret
  | |- Forall _ (fst (lift _)) => apply Forall_lift
  | |- Forall _ (fst (add_result _)) => apply Forall_add; reflexivity
  | |- Forall _ (fst (for_ _ _)) => apply Forall_for; intros ?
  | |- Forall _ (fst (scan_patterns _ _ _)) => apply Forall_scan_patterns
  | |- Forall _ (fst (if ?b then _ else _)) => destruct b
  | |- Forall _ (fst (match ?x with _ => _ end)) => destruct x
  | |- Forall _ (fst (let _ := _ in _)) => cbv zeta
  end.

Lemma run_evaluators_sev_ok (cfg : config) (snap : snapshot) :
  Forall sev_ok (fst (run_evaluators cfg snap)).
Proof.
  unfold run_evaluators.
  repeat (apply Forall_bind; [|intros _]).
  - unfold validate_hooks. sev_steps.
  - unfold validate_documentation. sev_steps.
  - unfold validate_testing. sev_steps.
  - unfold validate_quality_gates. sev_steps.
  - unfold validate_git. sev_steps.
  - unfold validate_security, scan_dir, scan_file. sev_steps.
  - unfold validate_naming_conventions. sev_steps.
  - unfold validate_migrations. sev_steps.
Qed.

Lemma In_rescore_st (st0 : results_t) (cr : CategoryResult) :
  In cr (map rescore st0) -> exists cr0, In cr0 st0 /\ results cr = results cr0.
Proof.
  intros H. apply in_map_iff in H as (cr0 & <- & Hin).
  exists cr0. split; [exact Hin | apply rescore_results].
Qed.

Lemma recorded_severity (cfg : config) (snap : snapshot) (ov : Q) (g : string)
    (st : results_t) (cr : CategoryResult) (r : ValidationResult) :
  validate_all cfg snap = inr (ov, g, st) -> In cr st -> In r (results cr) ->
  severity r = expected_severity (name cr) (check_name r).
Proof.
  intros H Hcr Hr.
  destruct (validate_all_table cfg snap ov g st sev_ok (run_evaluators_sev_ok cfg snap) H)
    as (st0 & -> & Hinv & _).
  pose proof Hcr as Hcr'.
  apply in_map_iff in Hcr' as (cr0 & <- & Hin0).
  rewrite rescore_results in Hr. rewrite rescore_name.
  rewrite Forall_forall in Hinv. destruct (Hinv cr0 Hin0) as (_ & _ & Hres).
  rewrite Forall_forall in Hres. destruct (Hres r Hr) as [Hc Hs].
  unfold sev_ok in Hs. rewrite Hs, Hc. reflexivity.
Qed.

(** number of outcomes of [l] with check name [nm] *)
Definition count_check (nm : string) (l : list ValidationResult) : nat :=
  List.length (filter (fun r => String.eqb (check_name r) nm) l).

(** C8 (counterexample to uniqueness): with two scanned files holding a
    secret, the security category of a completed run records the check
    name no_hardcoded_secrets twice. *)
Lemma check_name_repeats_counterexample :
  exists ov g st cr,
    validate_all Demo.all_on Demo.brace_snap = inr (ov, g, st) /\
    find_cat st "security" = Some cr /\
    count_check "no_hardcoded_secrets" (results cr) = 2.
Proof.
  eexists _, _, _, _. split; [vm_compute; reflexivity|].
  split; [vm_compute; reflexivity | vm_compute; reflexivity].
Qed.

(** C8 (amended): in a completed run, every outcome of a category carries
    the severity fixed by its check definition ([expected_severity] of the
    category and the check name), so all outcomes of one category that
    share a check name carry the same severity; the check name itself need
    not be unique (see the counterexample above). *)
Theorem check_severity_consistent (cfg : config) (snap : snapshot) (ov : Q) (g : string)
    (st : results_t) (cr : CategoryResult) (r1 r2 : ValidationResult) :
  validate_all cfg snap = inr (ov, g, st) ->
  In cr st -> In r1 (results cr) -> In r2 (results cr) ->
  check_name r1 = check_name r2 ->
  severity r1 = expected_severity (name cr) (check_name r1) /\
  severity r1 = severity r2.
Proof.
  intros H Hcr H1 H2 Hn.
  rewrite (recorded_severity cfg snap ov g st cr r1 H Hcr H1).
  rewrite (recorded_severity cfg snap ov g st cr r2 H Hcr H2).
  rewrite Hn. split; reflexivity.
Qed.

Lemma check_severity_consistent_witness :
  exists ov g st cr r1 r2,
    validate_all Demo.all_on Demo.brace_snap = inr (ov, g, st) /\
    In cr st /\ nth_error (results cr) 1 = Some r1 /\ nth_error (results cr) 2 = Some r2 /\
    check_name r1 = check_name r2 /\
    severity r1 = expected_severity (name cr) (check_name r1) /\ severity r1 = severity r2.
Proof.
  destruct (validate_all Demo.all_on Demo.brace_snap) as [e|[[ov g] st]] eqn:E.
  - vm_compute in E. discriminate E.
  - pose proof E as E0. vm_compute in E0. injection E0 as Hov Hg Hst.
    destruct (find_cat st "security") as [cr|] eqn:Ecr;
      [|rewrite <- Hst in Ecr; vm_compute in Ecr; discriminate Ecr].
    assert (Hin : In cr st).
    { rewrite <- Hst in Ecr |- *. vm_compute in Ecr. injection Ecr as <-.
      repeat (first [left; reflexivity | right]). }
    destruct (nth_error (results cr) 1) as [r1|] eqn:E1;
      [|rewrite <- Hst in Ecr; vm_compute in Ecr; injection Ecr as <-;
        vm_compute in E1; discriminate E1].
    destruct (nth_error (results cr) 2) as [r2|] eqn:E2;
      [|rewrite <- Hst in Ecr; vm_compute in Ecr; injection Ecr as <-;
        vm_compute in E2; discriminate E2].
    assert (Hn : check_name r1 = check_name r2).
    { rewrite <- Hst in Ecr. vm_compute in Ecr. injection Ecr as <-.
      vm_compute in E1, E2. injection E1 as <-. injection E2 as <-. reflexivity. }
    exists ov, g, st, cr, r1, r2.
    split; [reflexivity|]. split; [exact Hin|]. split; [exact E1|]. split; [exact E2|].
    split; [exact Hn|].
    apply (check_severity_consistent Demo.all_on Demo.brace_snap ov g st cr r1 r2 E Hin);
      [eapply nth_error_In; exact E1 | eapply nth_error_In; exact E2 | exact Hn].
Defined.

(* ================================================================== *)
(** * Further properties of the engine and of its reports *)

Section Preserve.
Variable cfg : config.
Variable P : results_t -> Prop.
Hypothesis P_step : forall st st' r, P st -> add_result_to cfg st r = inr st' -> P st'.

Lemma add_all_preserves (rs : list ValidationResult) :
  forall st st', P st -> add_all cfg st rs = inr st' -> P st'.
Proof.
  induction rs as [|r rs IH]; simpl; intros st st' Hst H.
  - injection H as <-. exact Hst.
  - destruct (add_result_to cfg st r) as [e|st1] eqn:E; [discriminate|].
    exact (IH st1 st' (P_step _ _ _ Hst E) H).
Qed.

End Preserve.

(** a property of every category is kept by [_add_result] when new
    categories have it and [tally] keeps it *)
Lemma add_result_forall (P : CategoryResult -> Prop) (cfg : config) (st st' : results_t)
    (r : ValidationResult) :
  (forall c w, P (mkCR c w 0 0 0 0%Q []) -> P (tally r (mkCR c w 0 0 0 0%Q []))) ->
  (forall c w, P (mkCR c w 0 0 0 0%Q [])) ->
  (forall cr, P cr -> P (tally r cr)) ->
  Forall P st -> add_result_to cfg st r = inr st' -> Forall P st'.
Proof.
  intros _ Hnew Htally Hst H. unfold add_result_to in H.
  destruct (find_cat st (category r)) as [cr|] eqn:Ef.
  - injection H as <-. apply Forall_update; [|exact Hst]. intros; auto.
  - destruct (category_weight cfg (category r)) as [e|w]; [discriminate|].
    injection H as <-. rewrite (update_new (tally r)) by (auto || reflexivity).
    apply Forall_app; split; [exact Hst|]. constructor; [apply Htally, Hnew | constructor].
Qed.

(** ** Counters and recorded outcomes *)

Definition is_fail (r : ValidationResult) : bool :=
  negb (passed r) && String.eqb (severity r) "critical".

Definition is_warn (r : ValidationResult) : bool :=
  negb (passed r) && negb (String.eqb (severity r) "critical").

Definition count_by (p : ValidationResult -> bool) (l : list ValidationResult) : nat :=
  List.length (filter p l).

Definition counts_ok (cr : CategoryResult) : Prop :=
  checks_passed cr = count_by passed (results cr) /\
  checks_failed cr = count_by is_fail (results cr) /\
  checks_warned cr = count_by is_warn (results cr).

Lemma count_by_snoc (p : ValidationResult -> bool) (l : list ValidationResult)
    (r : ValidationResult) :
  count_by p (app l [r]) = count_by p l + (if p r then 1 else 0).
Proof.
  unfold count_by. rewrite filter_app, length_app. simpl. destruct (p r); reflexivity.
Qed.

Lemma count_partition (l : list ValidationResult) :
  count_by passed l + count_by is_fail l + count_by is_warn l = List.length l.
Proof.
  unfold count_by, is_fail, is_warn.
  induction l as [|r l IH]; simpl; [reflexivity|].
  destruct (passed r); simpl; [lia|].
  destruct (String.eqb (severity r) "critical"); simpl; lia.
Qed.

Lemma tally_counts (r : ValidationResult) (cr : CategoryResult) :
  counts_ok cr -> counts_ok (tally r cr).
Proof.
  intros (Hp & Hf & Hw). unfold tally, counts_ok.
  destruct (passed r) eqn:Ep;
    [|destruct (String.eqb (severity r) "critical") eqn:Es]; simpl;
    rewrite !count_by_snoc; unfold is_fail, is_warn; rewrite Ep; try rewrite Es; simpl;
    fold is_fail is_warn; lia.
Qed.

Lemma counts_table (cfg : config) (rs : list ValidationResult) (st : results_t) :
  add_all cfg [] rs = inr st -> Forall counts_ok st.
Proof.
  intros H. refine (add_all_preserves cfg (Forall counts_ok) _ rs [] st (Forall_nil _) H).
  intros st0 st1 r Hst E. eapply add_result_forall; [| | |exact Hst|exact E].
  - intros c w Hc. apply tally_counts, Hc.
  - intros c w. repeat split.
  - apply tally_counts.
Qed.

Lemma rescore_counters (cr : CategoryResult) :
  checks_passed (rescore cr) = checks_passed cr /\ checks_failed (rescore cr) = checks_failed cr /\
  checks_warned (rescore cr) = checks_warned cr.
Proof. unfold rescore. destruct (Nat.ltb 0 (cat_total cr)); repeat split. Qed.

(** the table of a completed run, with the facts the score loop keeps *)
Lemma run_table (cfg : config) (snap : snapshot) (ov : Q) (g : string) (st : results_t) :
  validate_all cfg snap = inr (ov, g, st) ->
  exists st0, add_all cfg [] (fst (run_evaluators cfg snap)) = inr st0 /\
              st = map rescore st0 /\ Forall (table_inv (fun _ => True)) st0 /\
              (ov == overall_of (weighted_sum st0) (weight_sum st0))%Q /\
              g = determine_grade (compliance_grading cfg) ov.
Proof.
  intros H.
  destruct (validate_all_ok _ _ _ _ _ H) as (st0 & ts & tw & Ha & _ & Hc & Hov & Hg).
  destruct (calculate_scores_spec _ _ _ _ _ _ Hc) as (-> & Htw & Hts).
  exists st0. split; [exact Ha|]. split; [reflexivity|].
  split; [exact (add_all_inv (fun _ => True) cfg _ [] st0 (Forall_nil _) (Forall_true _) Ha)|].
  split; [|exact Hg]. subst ov. unfold overall_of. rewrite Htw. simpl.
  destruct (Z.ltb 0 (weight_sum st0)); [|reflexivity].
  rewrite Hts. unfold Qdiv. ring.
Qed.

(** a completed run of [cfg] on [snap] whose table has a first category *)
Ltac pick_run E :=
  match goal with
  | |- context [validate_all ?c ?s] =>
      destruct (validate_all c s) as [?e|[[?ov ?g] [|?cr ?st]]] eqn:E;
      [vm_compute in E; discriminate E | vm_compute in E; discriminate E | ]
  end.

Lemma table_counts (cfg : config) (snap : snapshot) (ov : Q) (g : string)
    (st : results_t) (cr : CategoryResult) :
  validate_all cfg snap = inr (ov, g, st) -> In cr st ->
  checks_passed cr = count_by passed (results cr) /\
  checks_failed cr = count_by is_fail (results cr) /\
  checks_warned cr = count_by is_warn (results cr) /\
  cat_total cr = List.length (results cr).
Proof.
  intros H Hin.
  destruct (run_table cfg snap ov g st H) as (st0 & Ha & -> & _).
  apply in_map_iff in Hin as (cr0 & <- & Hin0).
  pose proof (counts_table cfg _ st0 Ha) as Hc. rewrite Forall_forall in Hc.
  destruct (Hc cr0 Hin0) as (Hp & Hf & Hw).
  destruct (rescore_counters cr0) as (Ep & Ef & Ew).
  unfold cat_total. rewrite rescore_results, Ep, Ef, Ew, Hp, Hf, Hw.
  repeat split. apply count_partition.
Qed.

(** X1: in the report of every completed run, each category's
    [checks_passed] is the number of its passed outcomes,
    [checks_failed] the number of its failed "critical" outcomes,
    [checks_warned] the number of its other failed outcomes, and the three
    counters add up to the number of its recorded outcomes. *)
Theorem counters_count_outcomes (cfg : config) (snap : snapshot) (ov : Q) (g : string)
    (st : results_t) (cr : CategoryResult) :
  validate_all cfg snap = inr (ov, g, st) -> In cr st ->
  checks_passed cr = count_by passed (results cr) /\
  checks_failed cr = count_by is_fail (results cr) /\
  checks_warned cr = count_by is_warn (results cr) /\
  cat_total cr = List.length (results cr).
Proof. exact (table_counts cfg snap ov g st cr). Qed.

Lemma counters_count_outcomes_witness :
  exists ov g st cr, validate_all Demo.all_on Demo.ts_snap = inr (ov, g, st) /\ In cr st /\
    checks_passed cr = count_by passed (results cr) /\
    checks_failed cr = count_by is_fail (results cr) /\
    checks_warned cr = count_by is_warn (results cr) /\
    cat_total cr = List.length (results cr).
Proof.
  pick_run E. exists ov, g, (cr :: st), cr.
  split; [reflexivity|]. split; [left; reflexivity|].
  exact (counters_count_outcomes Demo.all_on Demo.ts_snap ov g (cr :: st) cr E
           (or_introl eq_refl)).
Defined.

(** ** Categories of the table: order of first appearance *)

(** [dict] insertion of a key: a new key goes last, a present one stays *)
Definition add_new (acc : list string) (x : string) : list string :=
  if existsb (String.eqb x) acc then acc else app acc [x].

Definition first_appearance (l : list string) : list string := fold_left add_new l [].

Lemma find_cat_none (st : results_t) (c : string) :
  find_cat st c = None <-> existsb (String.eqb c) (map name st) = false.
Proof.
  induction st as [|cr st IH]; simpl; [tauto|].
  rewrite (String.eqb_sym c (name cr)).
  destruct (String.eqb (name cr) c); simpl; [split; discriminate | exact IH].
Qed.

Lemma map_name_update (st : results_t) (c : string) (f : CategoryResult -> CategoryResult) :
  (forall cr, name (f cr) = name cr) -> map name (update_cat st c f) = map name st.
Proof.
  intros Hf. induction st as [|cr st IH]; simpl; [reflexivity|].
  destruct (String.eqb (name cr) c); simpl; rewrite ?Hf, ?IH; reflexivity.
Qed.

Lemma add_result_names (cfg : config) (st st' : results_t) (r : ValidationResult) :
  add_result_to cfg st r = inr st' -> map name st' = add_new (map name st) (category r).
Proof.
  unfold add_result_to, add_new. intros H.
  destruct (find_cat st (category r)) as [cr|] eqn:Ef.
  - injection H as <-. rewrite map_name_update by apply tally_name.
    destruct (existsb (String.eqb (category r)) (map name st)) eqn:Ex; [reflexivity|].
    apply find_cat_none in Ex. congruence.
  - destruct (category_weight cfg (category r)) as [e|w]; [discriminate|].
    injection H as <-. rewrite map_name_update by apply tally_name.
    apply find_cat_none in Ef. rewrite Ef, map_app. reflexivity.
Qed.

Lemma add_all_names (cfg : config) (rs : list ValidationResult) :
  forall st st', add_all cfg st rs = inr st' ->
  map name st' = fold_left add_new (map category rs) (map name st).
Proof.
  induction rs as [|r rs IH]; simpl; intros st st' H.
  - injection H as <-. reflexivity.
  - destruct (add_result_to cfg st r) as [e|st1] eqn:E; [discriminate|].
    rewrite (IH _ _ H), (add_result_names _ _ _ _ E). reflexivity.
Qed.

Lemma add_new_nodup (acc : list string) (x : string) : NoDup acc -> NoDup (add_new acc x).
Proof.
  unfold add_new. intros H. destruct (existsb (String.eqb x) acc) eqn:Ex; [exact H|].
  apply NoDup_app; [exact H | constructor; [intros []|constructor] | ].
  intros y Hy [Hxy|[]]. subst y. assert (existsb (String.eqb x) acc = true)
    by (apply existsb_exists; exists x; split; [exact Hy | apply String.eqb_refl]).
  congruence.
Qed.

Lemma fold_add_new_nodup (l acc : list string) : NoDup acc -> NoDup (fold_left add_new l acc).
Proof.
  revert acc. induction l as [|x l IH]; simpl; intros acc H; [exact H|].
  apply IH, add_new_nodup, H.
Qed.

Lemma report_categories_first_appearance_names (cfg : config) (snap : snapshot) (ov : Q)
    (g : string) (st : results_t) :
  validate_all cfg snap = inr (ov, g, st) ->
  map name st = first_appearance (map category (fst (run_evaluators cfg snap))) /\
  NoDup (map name st).
Proof.
  intros H. destruct (run_table cfg snap ov g st H) as (st0 & Ha & -> & _).
  rewrite map_map.
  assert (Hn : map (fun cr => name (rescore cr)) st0 = map name st0)
    by (apply map_ext, rescore_name).
  rewrite Hn, (add_all_names _ _ _ _ Ha). split; [reflexivity|].
  apply fold_add_new_nodup. constructor.
Qed.

(** X2: the categories of a completed run's report are the distinct
    categories of the recorded outcomes, each listed once, in the order of
    their first recorded outcome ([self.results] insertion order). *)
Theorem report_categories_first_appearance (cfg : config) (snap : snapshot) (ov : Q)
    (g : string) (st : results_t) :
  validate_all cfg snap = inr (ov, g, st) ->
  map name st = first_appearance (map category (fst (run_evaluators cfg snap))) /\
  NoDup (map name st).
Proof. exact (report_categories_first_appearance_names cfg snap ov g st). Qed.

Lemma report_categories_first_appearance_witness :
  exists ov g st, validate_all Demo.all_on Demo.ts_snap = inr (ov, g, st) /\
    map name st = first_appearance (map category (fst (run_evaluators Demo.all_on Demo.ts_snap))) /\
    NoDup (map name st).
Proof.
  destruct (validate_all Demo.all_on Demo.ts_snap) as [e|[[ov g] st]] eqn:E;
    [vm_compute in E; discriminate E|].
  exists ov, g, st. split; [reflexivity|].
  exact (report_categories_first_appearance Demo.all_on Demo.ts_snap ov g st E).
Defined.

(** ** Range of the category scores *)

Lemma score_formula_range (cr : CategoryResult) :
  0 < cat_total cr ->
  (0 <= score_formula cr <= 100)%Q /\
  ((score_formula cr == 100)%Q <-> checks_failed cr = 0 /\ checks_warned cr = 0) /\
  ((score_formula cr == 0)%Q <-> checks_passed cr = 0 /\ checks_warned cr = 0).
Proof.
  unfold score_formula, cat_total. intros Ht.
  destruct cr as [nm wt p f w sc res]; simpl in *.
  assert (HT : (inject_Z (Z.of_nat (p + f + w)) ==
                inject_Z (Z.of_nat p) + inject_Z (Z.of_nat f) + inject_Z (Z.of_nat w))%Q)
    by (rewrite !Nat2Z.inj_add, !inject_Z_plus; reflexivity).
  set (P := inject_Z (Z.of_nat p)) in *. set (F := inject_Z (Z.of_nat f)) in *.
  set (W := inject_Z (Z.of_nat w)) in *. set (T := inject_Z (Z.of_nat (p + f + w))) in *.
  assert (HP : (0 <= P)%Q) by (unfold P, Qle; simpl; lia).
  assert (HF : (0 <= F)%Q) by (unfold F, Qle; simpl; lia).
  assert (HW : (0 <= W)%Q) by (unfold W, Qle; simpl; lia).
  assert (HT0 : (0 < T)%Q) by (unfold T, Qlt; simpl; lia).
  assert (Hq : (T * ((P + (1#2) * W) / T) == P + (1#2) * W)%Q)
    by (apply Qmult_div_r; intro H; rewrite H in HT0; discriminate).
  set (q := ((P + (1#2) * W) / T)%Q) in *.
  assert (Hq0 : (0 <= q)%Q) by nra.
  assert (Hq1 : (q <= 1)%Q) by nra.
  split; [split; lra|]. split.
  - split.
    + intros H. assert (Hq' : (q == 1)%Q) by lra.
      assert ((F + (1#2) * W == 0)%Q) by (rewrite Hq' in Hq; lra).
      assert (HF0 : (F == 0)%Q) by lra. assert (HW0 : (W == 0)%Q) by lra.
      unfold F, W, Qeq in HF0, HW0. simpl in HF0, HW0. lia.
    + intros [-> ->]. assert ((F == 0)%Q) by reflexivity. assert ((W == 0)%Q) by reflexivity.
      assert ((q == 1)%Q) by nra. lra.
  - split.
    + intros H. assert (Hq' : (q == 0)%Q) by lra.
      assert ((P + (1#2) * W == 0)%Q) by (rewrite Hq' in Hq; lra).
      assert (HP0 : (P == 0)%Q) by lra. assert (HW0 : (W == 0)%Q) by lra.
      unfold P, W, Qeq in HP0, HW0. simpl in HP0, HW0. lia.
    + intros [-> ->]. assert ((P == 0)%Q) by reflexivity. assert ((W == 0)%Q) by reflexivity.
      assert ((q == 0)%Q) by nra. lra.
Qed.

Lemma table_score_range (cfg : config) (snap : snapshot) (ov : Q) (g : string)
    (st : results_t) (cr : CategoryResult) :
  validate_all cfg snap = inr (ov, g, st) -> In cr st ->
  (0 <= score cr <= 100)%Q /\
  ((score cr == 100)%Q <-> checks_failed cr = 0 /\ checks_warned cr = 0) /\
  ((score cr == 0)%Q <-> checks_passed cr = 0 /\ checks_warned cr = 0).
Proof.
  intros H Hin.
  destruct (run_table cfg snap ov g st H) as (st0 & _ & -> & Hinv & _).
  apply in_map_iff in Hin as (cr0 & <- & Hin0).
  rewrite Forall_forall in Hinv. destruct (Hinv cr0 Hin0) as (_ & Ht & _).
  destruct (rescore_counters cr0) as (Ep & Ef & Ew). rewrite Ep, Ef, Ew.
  rewrite (rescore_score cr0 Ht). exact (score_formula_range cr0 Ht).
Qed.

(** X3: in the report of every completed run, each category score lies
    between 0 and 100; it is 100 exactly when the category has no failed
    and no warned outcome, and 0 exactly when it has no passed and no
    warned outcome (all its outcomes are failed "critical" ones). *)
Theorem category_score_range (cfg : config) (snap : snapshot) (ov : Q) (g : string)
    (st : results_t) (cr : CategoryResult) :
  validate_all cfg snap = inr (ov, g, st) -> In cr st ->
  (0 <= score cr <= 100)%Q /\
  ((score cr == 100)%Q <-> checks_failed cr = 0 /\ checks_warned cr = 0) /\
  ((score cr == 0)%Q <-> checks_passed cr = 0 /\ checks_warned cr = 0).
Proof. exact (table_score_range cfg snap ov g st cr). Qed.

Lemma category_score_range_witness :
  exists ov g st cr, validate_all Demo.all_on Demo.ts_snap = inr (ov, g, st) /\ In cr st /\
    (0 <= score cr <= 100)%Q /\
    ((score cr == 100)%Q <-> checks_failed cr = 0 /\ checks_warned cr = 0) /\
    ((score cr == 0)%Q <-> checks_passed cr = 0 /\ checks_warned cr = 0).
Proof.
  pick_run E. exists ov, g, (cr :: st), cr.
  split; [reflexivity|]. split; [left; reflexivity|].
  exact (category_score_range Demo.all_on Demo.ts_snap ov g (cr :: st) cr E
           (or_introl eq_refl)).
Defined.

(** ** Range of the overall score *)

Lemma tally_weight (r : ValidationResult) (cr : CategoryResult) : weight (tally r cr) = weight cr.
Proof.
  unfold tally. destruct (passed r); [|destruct (String.eqb (severity r) "critical")];
    reflexivity.
Qed.

(** every category of the table carries the weight [_add_result] looked up *)
Definition weight_from_config (cfg : config) (cr : CategoryResult) : Prop :=
  category_weight cfg (name cr) = inr (weight cr).

Lemma weights_table (cfg : config) (rs : list ValidationResult) (st : results_t) :
  add_all cfg [] rs = inr st -> Forall (weight_from_config cfg) st.
Proof.
  intros H. refine (add_all_preserves cfg _ _ rs [] st (Forall_nil _) H).
  intros st0 st1 r Hst E. unfold add_result_to in E.
  destruct (find_cat st0 (category r)) as [cr|] eqn:Ef.
  - injection E as <-. apply Forall_update; [|exact Hst].
    intros cr0 _ Hw. unfold weight_from_config in *. rewrite tally_name, tally_weight. exact Hw.
  - destruct (category_weight cfg (category r)) as [e|w] eqn:Ew; [discriminate|].
    injection E as <-. rewrite (update_new (tally r)) by (auto || reflexivity).
    apply Forall_app; split; [exact Hst|]. constructor; [|constructor].
    unfold weight_from_config. rewrite tally_name, tally_weight. exact Ew.
Qed.

Lemma weight_nonneg (cfg : config) (cr : CategoryResult) :
  (forall vc c w, validation_categories cfg = Some vc -> assoc vc c = Some (Some w) ->
                  (0 <= w)%Z) ->
  weight_from_config cfg cr -> (0 <= weight cr)%Z.
Proof.
  unfold weight_from_config, category_weight. intros Hnn.
  destruct (validation_categories cfg) as [vc|] eqn:Evc; [|discriminate].
  destruct (assoc vc (name cr)) as [[w|]|] eqn:Ea; intros E; injection E as <-;
    [exact (Hnn vc (name cr) w eq_refl Ea) | lia | lia].
Qed.

Lemma weighted_sum_range (l : results_t) :
  Forall (fun cr => 0 < cat_total cr /\ (0 <= weight cr)%Z) l ->
  (0 <= fold_right (fun cr acc => score_formula cr * inject_Z (weight cr) + acc) 0 l)%Q /\
  (fold_right (fun cr acc => score_formula cr * inject_Z (weight cr) + acc) 0 l
   <= 100 * inject_Z (fold_right (fun cr acc => (weight cr + acc)%Z) 0%Z l))%Q.
Proof.
  induction 1 as [|cr l [Ht Hw] _ [IH0 IH1]]; simpl; [split; discriminate|].
  destruct (score_formula_range cr Ht) as [[Hs0 Hs1] _].
  assert (HW : (0 <= inject_Z (weight cr))%Q) by (unfold Qle; simpl; lia).
  rewrite inject_Z_plus.
  set (s := score_formula cr) in *. set (W := inject_Z (weight cr)) in *.
  split; nra.
Qed.

(** X4: when every weight written in [validation_categories] is
    non-negative, the overall score of every completed run lies between 0
    and 100 (a category without a weight there counts with 10). *)
Theorem overall_score_range (cfg : config) (snap : snapshot) (ov : Q) (g : string)
    (st : results_t) :
  (forall vc c w, validation_categories cfg = Some vc -> assoc vc c = Some (Some w) ->
                  (0 <= w)%Z) ->
  validate_all cfg snap = inr (ov, g, st) ->
  (0 <= ov <= 100)%Q.
Proof.
  intros Hnn H.
  destruct (run_table cfg snap ov g st H) as (st0 & Ha & _ & Hinv & Hov & _).
  pose proof (weights_table cfg _ st0 Ha) as Hw.
  assert (Hl : Forall (fun cr => 0 < cat_total cr /\ (0 <= weight cr)%Z) (included st0)).
  { apply Forall_forall. intros cr Hcr. unfold included in Hcr.
    apply filter_In in Hcr as [Hcr Ht]. apply Nat.ltb_lt in Ht. split; [exact Ht|].
    rewrite Forall_forall in Hw. exact (weight_nonneg cfg cr Hnn (Hw cr Hcr)). }
  destruct (weighted_sum_range _ Hl) as [H0 H1].
  fold (weighted_sum st0) in H0, H1. fold (weight_sum st0) in H1.
  rewrite Hov. unfold overall_of.
  destruct (Z.ltb 0 (weight_sum st0)) eqn:Ez; [|split; discriminate].
  apply Z.ltb_lt in Ez.
  assert (HT : (0 < inject_Z (weight_sum st0))%Q) by (unfold Qlt; simpl; lia).
  assert (Hq : (inject_Z (weight_sum st0) * (weighted_sum st0 / inject_Z (weight_sum st0))
                == weighted_sum st0)%Q)
    by (apply Qmult_div_r; intro E; rewrite E in HT; discriminate).
  set (q := (weighted_sum st0 / inject_Z (weight_sum st0))%Q) in *.
  set (T := inject_Z (weight_sum st0)) in *.
  split; nra.
Qed.

Lemma overall_score_range_witness :
  exists ov g st, validate_all Demo.all_on Demo.ts_snap = inr (ov, g, st) /\ (0 <= ov <= 100)%Q.
Proof.
  destruct (validate_all Demo.all_on Demo.ts_snap) as [e|[[ov g] st]] eqn:E;
    [vm_compute in E; discriminate E|].
  exists ov, g, st. split; [reflexivity|].
  apply (overall_score_range Demo.all_on Demo.ts_snap ov g st); [|exact E].
  intros vc c w Hvc Ha. injection Hvc as <-. simpl in Ha.
  repeat match type of Ha with
         | context [String.eqb ?a ?b] => destruct (String.eqb a b)
         end; try discriminate; injection Ha as <-; lia.
Defined.

(** ** Only enabled categories are reported *)

(** the category [c] is one of the eight and its [enabled] flag is set *)
Definition category_enabled (cfg : config) (c : string) : bool :=
  (String.eqb c "hooks" && hooks_enabled cfg) ||
  (String.eqb c "documentation" && documentation_enabled cfg) ||
  (String.eqb c "testing" && testing_enabled cfg) ||
  (String.eqb c "quality_gates" && quality_gates_enabled cfg) ||
  (String.eqb c "git" && git_enabled cfg) ||
  (String.eqb c "security" && security_enabled cfg) ||
  (String.eqb c "naming_conventions" && naming_conventions_enabled cfg) ||
  (String.eqb c "migrations" && migrations_enabled_for_supabase cfg).

Lemma Forall_scan_patterns_all (P : ValidationResult -> Prop) (fp c : string)
    (pats : list (string * string)) :
  (forall m d, P (mkVR "security" "no_hardcoded_secrets" false "critical" m d)) ->
  Forall P (fst (scan_patterns fp c pats)).
Proof.
  intros HP. induction pats as [|[pattern pname] pats IH]; simpl; [constructor|].
  destruct (Py.contains pattern c); [apply Forall_add, HP | exact IH].
Qed.

Ltac emit_steps add_tac :=
  repeat match goal with
  | |- Forall _ (fst (bind _ _)) => apply Forall_bind; [|intros ?]
  | |- Forall _ (fst (ret _)) => apply Forall_ret
  | |- Forall _ (fst (lift _)) => apply Forall_lift
  | |- Forall _ (fst (add_result _)) => apply Forall_add; add_tac
  | |- Forall _ (fst (for_ _ _)) => apply Forall_for; intros ?
  | |- Forall _ (fst (scan_patterns _ _ _)) =>
      apply Forall_scan_patterns_all; intros ? ?; add_tac
  | |- Forall _ (fst (if ?b then _ else _)) => destruct b
  | |- Forall _ (fst (match ?x with _ => _ end)) => destruct x
  | |- Forall _ (fst (let _ := _ in _)) => cbv zeta
  end.

Lemma run_evaluators_enabled (cfg : config) (snap : snapshot) :
  Forall (fun r => category_enabled cfg (category r) = true) (fst (run_evaluators cfg snap)).
Proof.
  unfold run_evaluators.
  repeat (apply Forall_bind; [|intros _]).
  - unfold validate_hooks. destruct (hooks_enabled cfg) eqn:En; cbn [negb];
      [|constructor]. emit_steps ltac:(unfold category_enabled; cbn [category]; rewrite En; reflexivity).
  - unfold validate_documentation. destruct (documentation_enabled cfg) eqn:En; cbn [negb];
      [|constructor]. emit_steps ltac:(unfold category_enabled; cbn [category]; rewrite En; reflexivity).
  - unfold validate_testing. destruct (testing_enabled cfg) eqn:En; cbn [negb];
      [|constructor]. emit_steps ltac:(unfold category_enabled; cbn [category]; rewrite En; reflexivity).
  - unfold validate_quality_gates. destruct (quality_gates_enabled cfg) eqn:En; cbn [negb];
      [|constructor]. emit_steps ltac:(unfold category_enabled; cbn [category]; rewrite En; reflexivity).
  - unfold validate_git. destruct (git_enabled cfg) eqn:En; cbn [negb];
      [|constructor]. emit_steps ltac:(unfold category_enabled; cbn [category]; rewrite En; reflexivity).
  - unfold validate_security, scan_dir, scan_file. destruct (security_enabled cfg) eqn:En;
      cbn [negb]; [|constructor].
    emit_steps ltac:(unfold category_enabled; cbn [category]; rewrite En; reflexivity).
  - unfold validate_naming_conventions. destruct (naming_conventions_enabled cfg) eqn:En;
      cbn [negb]; [|constructor].
    emit_steps ltac:(unfold category_enabled; cbn [category]; rewrite En; reflexivity).
  - unfold validate_migrations. destruct (migrations_enabled_for_supabase cfg) eqn:En;
      cbn [negb]; [|constructor].
    emit_steps ltac:(unfold category_enabled; cbn [category]; rewrite En; reflexivity).
Qed.

Lemma In_fold_add_new (l acc : list string) (x : string) :
  In x (fold_left add_new l acc) -> In x acc \/ In x l.
Proof.
  revert acc. induction l as [|y l IH]; simpl; intros acc H; [left; exact H|].
  destruct (IH _ H) as [Hin|Hin]; [|right; right; exact Hin].
  unfold add_new in Hin. destruct (existsb (String.eqb y) acc); [left; exact Hin|].
  apply in_app_or in Hin as [Hin|[<-|[]]]; [left; exact Hin | right; left; reflexivity].
Qed.

(** X5: every category in the report of a completed run is one of the
    eight categories with its [enabled] flag set: a disabled category
    never appears, and no other category name does. *)
Theorem report_only_enabled_categories (cfg : config) (snap : snapshot) (ov : Q) (g : string)
    (st : results_t) (cr : CategoryResult) :
  validate_all cfg snap = inr (ov, g, st) -> In cr st ->
  category_enabled cfg (name cr) = true.
Proof.
  intros H Hin.
  destruct (report_categories_first_appearance_names cfg snap ov g st H) as [Hn _].
  apply (in_map name) in Hin. rewrite Hn in Hin.
  destruct (In_fold_add_new _ _ _ Hin) as [[]|Hc].
  apply in_map_iff in Hc as (r & <- & Hr).
  pose proof (run_evaluators_enabled cfg snap) as He. rewrite Forall_forall in He.
  exact (He r Hr).
Qed.

Lemma report_only_enabled_categories_witness :
  exists ov g st cr,
    validate_all (Demo.git_only (Some Demo.weights)) Demo.gitignore_snap = inr (ov, g, st) /\
    In cr st /\ category_enabled (Demo.git_only (Some Demo.weights)) (name cr) = true.
Proof.
  pick_run E. exists ov, g, (cr :: st), cr.
  split; [reflexivity|]. split; [left; reflexivity|].
  exact (report_only_enabled_categories _ _ ov g (cr :: st) cr E (or_introl eq_refl)).
Defined.

(** ** Hook commands: one search serves both stages *)

(** [lefthook_path] as [validate_hooks] computes it *)
Definition lefthook_path (snap : snapshot) : option string :=
  if file_exists snap ".lefthook.yml" then Some ".lefthook.yml"
  else if file_exists snap "lefthook.yml" then Some "lefthook.yml" else None.

Definition hook_outcome_ok (snap : snapshot) (r : ValidationResult) : Prop :=
  check_name r = "lefthook_config_exists" \/ check_name r = "claude_settings_exists" \/
  exists c lp, (check_name r = "pre_commit_" ++ c \/ check_name r = "pre_push_" ++ c) /\
               lefthook_path snap = Some lp /\
               passed r = check_file_contains snap lp (c ++ ":").

Lemma hooks_outcomes (cfg : config) (snap : snapshot) :
  Forall (hook_outcome_ok snap) (fst (validate_hooks cfg snap)).
Proof.
  unfold validate_hooks. destruct (negb (hooks_enabled cfg)); [constructor|]. cbv zeta.
  fold (lefthook_path snap). destruct (lefthook_path snap) as [lp|] eqn:El;
    emit_steps ltac:(unfold hook_outcome_ok; cbn [check_name passed];
      first [left; reflexivity | right; left; reflexivity
            | right; right; eexists _, _;
              split; [first [left; reflexivity | right; reflexivity] | split; [exact El | reflexivity]]]).
Qed.

Lemma str_append_cancel (s a b : string) : s ++ a = s ++ b -> a = b.
Proof. induction s as [|c s IH]; simpl; [auto | intros H; injection H; exact IH]. Qed.

(** X6: [validate_hooks] searches the whole lefthook file for "<cmd>:" for
    both stages, so for a command listed under pre_commit_commands and
    pre_push_commands the two outcomes always agree: a command configured
    under only one stage passes (or fails) both checks. *)
Theorem hook_stages_agree (cfg : config) (snap : snapshot) (cmd : string)
    (r1 r2 : ValidationResult) :
  In r1 (fst (validate_hooks cfg snap)) -> In r2 (fst (validate_hooks cfg snap)) ->
  check_name r1 = "pre_commit_" ++ cmd -> check_name r2 = "pre_push_" ++ cmd ->
  passed r1 = passed r2.
Proof.
  intros H1 H2 N1 N2. pose proof (hooks_outcomes cfg snap) as Hf. rewrite Forall_forall in Hf.
  destruct (Hf r1 H1) as [E|[E|(c1 & lp1 & [E1|E1] & L1 & P1)]];
    rewrite N1 in *; try (simpl in E; discriminate E); try (simpl in E1; discriminate E1).
  destruct (Hf r2 H2) as [E|[E|(c2 & lp2 & [E2|E2] & L2 & P2)]];
    rewrite N2 in *; try (simpl in E; discriminate E); try (simpl in E2; discriminate E2).
  apply str_append_cancel in E1, E2. subst c1 c2.
  rewrite L1 in L2. injection L2 as <-. rewrite P1, P2. reflexivity.
Qed.

(** hooks only, with the command "test" listed for both stages *)
Definition shared_hook_cfg : config :=
  mkConfig (Some Demo.weights) Demo.grading
    true ["test"] ["test"]
    false [] "docs/wip" []
    false false EmptyString [] false EmptyString
    false false EmptyString false EmptyString false EmptyString false EmptyString
    false [] false EmptyString false [] false.

(** "test" is configured under pre-push only *)
Definition pre_push_only_snap : snapshot :=
  mkSnap [("lefthook.yml", Demo.ok_file "pre-push: commands: test: run: npm test")].

Lemma hook_stages_agree_witness :
  exists r1 r2,
    In r1 (fst (validate_hooks shared_hook_cfg pre_push_only_snap)) /\
    In r2 (fst (validate_hooks shared_hook_cfg pre_push_only_snap)) /\
    check_name r1 = "pre_commit_" ++ "test" /\ check_name r2 = "pre_push_" ++ "test" /\
    passed r1 = true /\ passed r1 = passed r2.
Proof.
  destruct (nth_error (fst (validate_hooks shared_hook_cfg pre_push_only_snap)) 1)
    as [r1|] eqn:E1; [|vm_compute in E1; discriminate E1].
  destruct (nth_error (fst (validate_hooks shared_hook_cfg pre_push_only_snap)) 2)
    as [r2|] eqn:E2; [|vm_compute in E2; discriminate E2].
  assert (I1 := nth_error_In _ _ E1). assert (I2 := nth_error_In _ _ E2).
  vm_compute in E1, E2. injection E1 as E1. injection E2 as E2.
  assert (N1 : check_name r1 = "pre_commit_" ++ "test") by (rewrite <- E1; reflexivity).
  assert (N2 : check_name r2 = "pre_push_" ++ "test") by (rewrite <- E2; reflexivity).
  exists r1, r2. split; [exact I1|]. split; [exact I2|]. split; [exact N1|]. split; [exact N2|].
  split; [rewrite <- E1; reflexivity|].
  exact (hook_stages_agree shared_hook_cfg pre_push_only_snap "test" r1 r2 I1 I2 N1 N2).
Defined.

(** ** .gitignore entries: a substring test on the entry without its
    trailing slashes *)

Fixpoint drop_slashes (r : string) : string :=
  match r with
  | String "/" r' => drop_slashes r'
  | _ => r
  end.

Lemma rstrip_slash_drop (s : string) :
  Py.rstrip_slash s = Py.rev_str (drop_slashes (Py.rev_str s)).
Proof. reflexivity. Qed.

Lemma drop_slashes_cons (a : ascii) (r : string) :
  drop_slashes (String a r) = if Ascii.eqb a "/" then drop_slashes r else String a r.
Proof. destruct a as [[] [] [] [] [] [] [] []]; reflexivity. Qed.

Lemma drop_slashes_split (r : string) : exists u, r = u ++ drop_slashes r.
Proof.
  induction r as [|a r [u IH]]; [exists EmptyString; reflexivity|].
  rewrite drop_slashes_cons. destruct (Ascii.eqb a "/").
  - exists (String a u). simpl. rewrite <- IH. reflexivity.
  - exists EmptyString. reflexivity.
Qed.

Lemma rev_str_involutive (s : string) : Py.rev_str (Py.rev_str s) = s.
Proof.
  induction s as [|c s IH]; simpl; [reflexivity|].
  rewrite rev_str_app, IH. reflexivity.
Qed.

Lemma rstrip_slash_split (s : string) : exists t, s = Py.rstrip_slash s ++ t.
Proof.
  rewrite rstrip_slash_drop. destruct (drop_slashes_split (Py.rev_str s)) as [u Hu].
  exists (Py.rev_str u).
  rewrite <- rev_str_app, <- Hu, rev_str_involutive. reflexivity.
Qed.

Lemma prefix_app_l (a b s : string) : prefix (a ++ b) s = true -> prefix a s = true.
Proof.
  revert s. induction a as [|c a IH]; intros s H.
  - destruct s; reflexivity.
  - destruct s as [|d s]; simpl in *; [discriminate|].
    destruct (ascii_dec c d); [exact (IH s H) | discriminate].
Qed.

Lemma contains_app_l (a b s : string) : Py.contains (a ++ b) s = true -> Py.contains a s = true.
Proof.
  induction s as [|d s IH]; intros H; cbn [Py.contains] in H |- *.
  - destruct a as [|c a]; [reflexivity | simpl in H; discriminate].
  - apply orb_true_iff in H as [H|H].
    + rewrite (prefix_app_l a b _ H). reflexivity.
    + rewrite (IH H). apply orb_true_r.
Qed.

Lemma contains_rstrip (entry s : string) :
  Py.contains entry s = true -> Py.contains (Py.rstrip_slash entry) s = true.
Proof.
  destruct (rstrip_slash_split entry) as [t Ht]. rewrite Ht at 1. apply contains_app_l.
Qed.

(** X7: when .gitignore can be read, every outcome of [validate_git]
    other than gitignore_exists is the check of one required entry, and it
    passes exactly when that entry with its trailing slashes removed occurs
    anywhere in the file's text (the test on the full entry adds
    nothing). *)
Theorem gitignore_entry_substring (cfg : config) (snap : snapshot) (text : string)
    (r : ValidationResult) :
  read_file snap ".gitignore" = Some text ->
  In r (fst (validate_git cfg snap)) -> check_name r <> "gitignore_exists" ->
  exists entry, In entry (git_gitignore_must_include cfg) /\
    message r = ".gitignore includes " ++ entry /\
    passed r = Py.contains (Py.rstrip_slash entry) text.
Proof.
  intros Hread Hin Hname. unfold validate_git in Hin.
  destruct (negb (git_enabled cfg)); [destruct Hin|]. cbv zeta in Hin.
  apply In_bind in Hin as [[<-|[]]|(_ & _ & Hin)]; [exfalso; apply Hname; reflexivity|].
  destruct (file_exists snap ".gitignore"); [|destruct Hin].
  apply In_for in Hin as (entry & Hentry & Hin). rewrite Hread in Hin.
  apply In_bind in Hin as [[]|(has & Hhas & [<-|[]])].
  exists entry. split; [exact Hentry|]. split; [reflexivity|]. simpl.
  simpl in Hhas. destruct (Py.contains entry text) eqn:Ec; injection Hhas as <-;
    [symmetry; exact (contains_rstrip _ _ Ec) | reflexivity].
Qed.

Lemma gitignore_entry_substring_witness :
  exists r, In r (fst (validate_git (Demo.git_only (Some Demo.weights)) Demo.gitignore_snap)) /\
    check_name r <> "gitignore_exists" /\
    exists entry, In entry (git_gitignore_must_include (Demo.git_only (Some Demo.weights))) /\
      message r = ".gitignore includes " ++ entry /\
      passed r = Py.contains (Py.rstrip_slash entry) "node_modules/".
Proof.
  destruct (nth_error (fst (validate_git (Demo.git_only (Some Demo.weights)) Demo.gitignore_snap)) 1)
    as [r|] eqn:E; [|vm_compute in E; discriminate E].
  assert (I := nth_error_In _ _ E). vm_compute in E. injection E as E.
  assert (N : check_name r <> "gitignore_exists") by (rewrite <- E; discriminate).
  exists r. split; [exact I|]. split; [exact N|].
  exact (gitignore_entry_substring (Demo.git_only (Some Demo.weights)) Demo.gitignore_snap
           "node_modules/" r ltac:(vm_compute; reflexivity) I N).
Defined.

(** ** Migrations: one verdict over the direct *.sql children *)

(** the file reads and [migration_issues] finds something in it *)
Definition has_issues (snap : snapshot) (f : string) : bool :=
  match FS.read_text snap f with
  | inr c => match migration_issues c with [] => false | _ => true end
  | inl _ => false
  end.

Lemma scan_migrations_spec (snap : snapshot) (files nif : list string) :
  scan_migrations snap files = inr nif ->
  (forall f, In f files -> exists c, FS.read_text snap f = inr c) /\
  List.length nif = List.length (filter (has_issues snap) files).
Proof.
  revert nif. induction files as [|f files IH]; simpl; intros nif H.
  - injection H as <-. split; [intros _ []|reflexivity].
  - unfold has_issues at 1.
    destruct (FS.read_text snap f) as [e|c] eqn:Er; [discriminate|].
    destruct (scan_migrations snap files) as [e|rest] eqn:Es; [discriminate|].
    injection H as <-. destruct (IH rest eq_refl) as [Hr Hl]. split.
    + intros g [<-|Hg]; [exists c; exact Er | exact (Hr g Hg)].
    + destruct (migration_issues c); simpl; rewrite Hl; reflexivity.
Qed.

Lemma filter_length_zero {A} (p : A -> bool) (l : list A) :
  Nat.eqb (List.length (filter p l)) 0 = negb (existsb p l).
Proof.
  induction l as [|x l IH]; simpl; [reflexivity|]. destruct (p x); simpl; [reflexivity|exact IH].
Qed.

(** X8: an outcome of [validate_migrations] is a verdict on every *.sql
    file directly inside the migrations directory it chose
    (supabase/migrations if present, else apps/web/supabase/migrations):
    all of them were read, the check passes exactly when none has an
    idempotency issue, and when it fails its details start with the
    number of files with issues. *)
Theorem migrations_verdict (cfg : config) (snap : snapshot) (r : ValidationResult) :
  In r (fst (validate_migrations cfg snap)) ->
  exists dir, (dir = "supabase/migrations" \/ dir = "apps/web/supabase/migrations") /\
    (forall f, In f (FS.glob snap dir "*.sql") -> exists c, FS.read_text snap f = inr c) /\
    passed r = negb (existsb (has_issues snap) (FS.glob snap dir "*.sql")) /\
    (passed r = false ->
     exists rest, details r = Some ("Issues in "
                                    ++ Py.str_nat (List.length (filter (has_issues snap)
                                                                 (FS.glob snap dir "*.sql")))
                                    ++ " files: " ++ rest)).
Proof.
  intros Hin. unfold validate_migrations in Hin.
  destruct (negb (migrations_enabled_for_supabase cfg)); [destruct Hin|]. cbv zeta in Hin.
  set (dir := if file_exists snap "supabase/migrations" then "supabase/migrations"
              else "apps/web/supabase/migrations") in Hin.
  destruct (negb (file_exists snap dir)); [destruct Hin|].
  apply In_bind in Hin as [[]|(nif & Hnif & [<-|[]])]. simpl in Hnif.
  destruct (scan_migrations_spec snap _ nif Hnif) as [Hread Hlen].
  exists dir. split; [unfold dir; destruct (file_exists snap "supabase/migrations"); auto|].
  split; [exact Hread|]. simpl. rewrite Hlen, negb_involutive, filter_length_zero.
  split; [reflexivity|]. intros Hp.
  destruct (existsb (has_issues snap) (FS.glob snap dir "*.sql")); [|discriminate].
  eexists. reflexivity.
Qed.

(** two migrations, one with a policy outside a DO $$ block *)
Definition migration_snap : snapshot :=
  mkSnap [("supabase", EDir); ("supabase/migrations", EDir);
          ("supabase/migrations/001_init.sql", Demo.ok_file "CREATE TABLE t ();");
          ("supabase/migrations/002_rls.sql", Demo.ok_file "CREATE POLICY p ON t;");
          ("supabase/migrations/old", EDir);
          ("supabase/migrations/old/003.sql", Demo.ok_file "CREATE POLICY q ON t;")].

Lemma migrations_verdict_witness :
  exists r, In r (fst (validate_migrations Demo.all_on migration_snap)) /\
  exists dir, (dir = "supabase/migrations" \/ dir = "apps/web/supabase/migrations") /\
    (forall f, In f (FS.glob migration_snap dir "*.sql") -> exists c, FS.read_text migration_snap f = inr c) /\
    passed r = negb (existsb (has_issues migration_snap) (FS.glob migration_snap dir "*.sql")) /\
    (passed r = false ->
     exists rest, details r = Some ("Issues in "
                                    ++ Py.str_nat (List.length (filter (has_issues migration_snap)
                                                                 (FS.glob migration_snap dir "*.sql")))
                                    ++ " files: " ++ rest)).
Proof.
  destruct (nth_error (fst (validate_migrations Demo.all_on migration_snap)) 0)
    as [r|] eqn:E; [|vm_compute in E; discriminate E].
  assert (I := nth_error_In _ _ E). exists r. split; [exact I|].
  exact (migrations_verdict Demo.all_on migration_snap r I).
Defined.

(** ** Naming conventions: an empty forbidden suffix *)

Lemma endswith_empty (s : string) : Py.endswith s EmptyString = true.
Proof. unfold Py.endswith. simpl. destruct (Py.rev_str s); reflexivity. Qed.

Lemma flat_map_nil_iff {A B} (f : A -> list B) (l : list A) :
  flat_map f l = [] <-> forall x, In x l -> f x = [].
Proof.
  induction l as [|x l IH]; simpl; [split; [intros _ _ []|reflexivity]|].
  split.
  - intros H. apply app_eq_nil in H as [Hx Hl]. intros y [<-|Hy]; [exact Hx|].
    exact (proj1 IH Hl y Hy).
  - intros H. rewrite (H x (or_introl eq_refl)), (proj2 IH (fun y Hy => H y (or_intror Hy))).
    reflexivity.
Qed.

Lemma filter_nil_iff {A} (p : A -> bool) (l : list A) :
  filter p l = [] <-> forall x, In x l -> p x = false.
Proof.
  induction l as [|x l IH]; simpl; [split; [intros _ _ []|reflexivity]|].
  destruct (p x) eqn:Ep; split.
  - discriminate.
  - intros H. rewrite (H x (or_introl eq_refl)) in Ep. discriminate.
  - intros H y [<-|Hy]; [exact Ep | exact (proj1 IH H y Hy)].
  - intros H. apply IH. auto.
Qed.

(** X9: when the forbidden suffixes include the empty string (and the
    category is enabled), [validate_naming_conventions] records one
    outcome, which passes exactly when no regular file lies anywhere below
    the six source directories: every file name ends with the empty
    suffix. *)
Theorem empty_suffix_flags_every_file (cfg : config) (snap : snapshot) :
  naming_conventions_enabled cfg = true ->
  In EmptyString (naming_conventions_forbidden_suffixes cfg) ->
  exists r, fst (validate_naming_conventions cfg snap) = [r] /\
    (passed r = true <->
     forall d p, In d naming_source_dirs -> FS.exists_ snap d && FS.is_dir snap d = true ->
                 In p (FS.rglob snap d "*") -> FS.is_file snap p = false).
Proof.
  intros Hen Hempty. unfold validate_naming_conventions. rewrite Hen. simpl.
  eexists. split; [reflexivity|]. simpl. rewrite negb_involutive, Nat.eqb_eq,
    length_zero_iff_nil. unfold files_with_suffixes. rewrite flat_map_nil_iff.
  assert (Hs : forall p, existsb (fun suffix => Py.endswith (FS.stem p) suffix)
                                 (naming_conventions_forbidden_suffixes cfg) = true)
    by (intros p; apply existsb_exists; exists EmptyString; split;
        [exact Hempty | apply endswith_empty]).
  split.
  - intros H d p Hd Hdir Hp. specialize (H d Hd). rewrite Hdir in H.
    apply (proj1 (filter_nil_iff _ _)) with (x := p) in H; [|exact Hp].
    rewrite Hs, andb_true_r in H. exact H.
  - intros H d Hd. destruct (FS.exists_ snap d && FS.is_dir snap d) eqn:Hdir; [|reflexivity].
    apply filter_nil_iff. intros p Hp. rewrite Hs, andb_true_r. exact (H d p Hd Hdir Hp).
Qed.

(** naming conventions only, with an empty forbidden suffix *)
Definition empty_suffix_cfg : config :=
  mkConfig (Some Demo.weights) Demo.grading
    false [] []
    false [] "docs/wip" []
    false false EmptyString [] false EmptyString
    false false EmptyString false EmptyString false EmptyString false EmptyString
    false [] false EmptyString true ["_v2"; EmptyString] false.

Lemma empty_suffix_flags_every_file_witness :
  exists r, fst (validate_naming_conventions empty_suffix_cfg Demo.ts_snap) = [r] /\
    passed r = false /\
    (passed r = true <->
     forall d p, In d naming_source_dirs ->
                 FS.exists_ Demo.ts_snap d && FS.is_dir Demo.ts_snap d = true ->
                 In p (FS.rglob Demo.ts_snap d "*") -> FS.is_file Demo.ts_snap p = false).
Proof.
  destruct (empty_suffix_flags_every_file empty_suffix_cfg Demo.ts_snap eq_refl
              ltac:(simpl; auto)) as (r & Hr & Hiff).
  exists r. split; [exact Hr|]. split; [|exact Hiff].
  vm_compute in Hr. injection Hr as <-. reflexivity.
Defined.

(** ** The text report, the JSON report and the exit status *)

(** [determine_grade] answers ['F'] or one of the band names it was given *)
Lemma determine_grade_key (grading : list (string * Q)) (s : Q) :
  determine_grade grading s = "F" \/
  Report.grading_has grading (determine_grade grading s) = true.
Proof.
  induction grading as [|[k m] grading IH]; simpl; [left; reflexivity|].
  destruct (Qle_bool m s); [right; rewrite String.eqb_refl; reflexivity|].
  destruct IH as [IH|IH]; [left; exact IH|right; rewrite IH; apply orb_true_r].
Qed.

(** X10: when the grade of a completed run is not a band of
    [compliance_grading], the grade is ['F'] (no band reached, and the
    bands do not list ['F']); the text report then stops with
    [KeyError('F')] when it looks the grade up, while the JSON report
    ends with the exit status of the score. *)
Theorem ungraded_run_breaks_text_report (fmt_1f : Q -> string) (cfg : config)
    (descriptions : list (string * option string)) (snap : snapshot) (ov : Q) (g : string)
    (st : results_t) :
  validate_all cfg snap = inr (ov, g, st) ->
  Report.grading_has (compliance_grading cfg) g = false ->
  g = "F" /\
  snd (Report.print_results fmt_1f cfg descriptions st ov g) = Some (KeyError "F") /\
  Report.main fmt_1f cfg descriptions snap false = inl (KeyError "F") /\
  Report.main fmt_1f cfg descriptions snap true = inr (Report.exit_code ov).
Proof.
  intros H Hk.
  destruct (run_table cfg snap ov g st H) as (_ & _ & _ & _ & _ & Hg).
  assert (HF : g = "F").
  { destruct (determine_grade_key (compliance_grading cfg) ov) as [E|E].
    - rewrite Hg. exact E.
    - rewrite <- Hg, Hk in E. discriminate E. }
  rewrite HF in H, Hk |- *. clear HF Hg.
  assert (Hp : snd (Report.print_results fmt_1f cfg descriptions st ov "F") = Some (KeyError "F"))
    by (unfold Report.print_results; rewrite Hk; reflexivity).
  split; [reflexivity|]. split; [exact Hp|].
  unfold Report.main. rewrite H, Hp. split; reflexivity.
Qed.

Lemma ungraded_run_breaks_text_report_witness :
  exists ov g st,
    validate_all Demo.all_on Demo.ts_snap = inr (ov, g, st) /\
    Report.grading_has (compliance_grading Demo.all_on) g = false /\
    g = "F" /\
    snd (Report.print_results (fun _ => EmptyString) Demo.all_on [] st ov g)
      = Some (KeyError "F") /\
    Report.main (fun _ => EmptyString) Demo.all_on [] Demo.ts_snap false = inl (KeyError "F") /\
    Report.main (fun _ => EmptyString) Demo.all_on [] Demo.ts_snap true
      = inr (Report.exit_code ov).
Proof.
  pick_run E. exists ov, g, (cr :: st).
  assert (Hk : Report.grading_has (compliance_grading Demo.all_on) g = false).
  { pose proof E as E'. vm_compute in E'. injection E' as _ <- _. reflexivity. }
  split; [reflexivity|]. split; [exact Hk|].
  exact (ungraded_run_breaks_text_report (fun _ => EmptyString) Demo.all_on [] Demo.ts_snap
           ov g (cr :: st) E Hk).
Defined.

(** X11: the icon of a category header in the text report is "✗" exactly
    when one of the category's recorded outcomes is a failed critical
    check, and "✓" otherwise: a category whose only failures are of other
    severities is shown with "✓", and "⚠" is never shown. *)
Theorem header_icon_marks_critical_failures (cfg : config) (snap : snapshot) (ov : Q)
    (g : string) (st : results_t) (cr : CategoryResult) :
  validate_all cfg snap = inr (ov, g, st) -> In cr st ->
  Report.status_icon cr = if existsb is_fail (results cr) then "✗" else "✓".
Proof.
  intros H Hin. destruct (table_counts cfg snap ov g st cr H Hin) as (_ & Hf & _).
  unfold Report.status_icon. rewrite Hf. unfold count_by.
  pose proof (filter_length_zero is_fail (results cr)) as Hz.
  destruct (existsb is_fail (results cr)), (List.length (filter is_fail (results cr)));
    simpl in *; first [reflexivity | discriminate].
Qed.

Lemma header_icon_marks_critical_failures_witness :
  exists ov g st cr, validate_all Demo.all_on Demo.ts_snap = inr (ov, g, st) /\ In cr st /\
    Report.status_icon cr = if existsb is_fail (results cr) then "✗" else "✓".
Proof.
  pick_run E. exists ov, g, (cr :: st), cr.
  split; [reflexivity|]. split; [left; reflexivity|].
  exact (header_icon_marks_critical_failures Demo.all_on Demo.ts_snap ov g (cr :: st) cr E
           (or_introl eq_refl)).
Defined.

(** X12: the list of critical issues at the end of the text report has
    one entry per failed critical check of the run: its length is the sum
    of the categories' [checks_failed], so "... and N more critical issues"
    gives that sum minus five. *)
Theorem critical_issue_count (cfg : config) (snap : snapshot) (ov : Q) (g : string)
    (st : results_t) :
  validate_all cfg snap = inr (ov, g, st) ->
  List.length (Report.critical_failures st)
  = fold_right (fun cr acc => checks_failed cr + acc) 0 st.
Proof.
  intros H.
  assert (Hall : forall cr, In cr st -> checks_failed cr = count_by is_fail (results cr))
    by (intros cr Hin; exact (proj1 (proj2 (table_counts cfg snap ov g st cr H Hin)))).
  clear H. unfold Report.critical_failures.
  induction st as [|cr st IH]; simpl; [reflexivity|].
  rewrite length_app, IH by (intros c Hc; exact (Hall c (or_intror Hc))).
  rewrite (Hall cr (or_introl eq_refl)). reflexivity.
Qed.

Lemma critical_issue_count_witness :
  exists ov g st, validate_all Demo.all_on Demo.ts_snap = inr (ov, g, st) /\
    List.length (Report.critical_failures st)
    = fold_right (fun cr acc => checks_failed cr + acc) 0 st.
Proof.
  pick_run E. exists ov, g, (cr :: st). split; [reflexivity|].
  exact (critical_issue_count Demo.all_on Demo.ts_snap ov g (cr :: st) E).
Defined.

(** X13: with every category disabled, [validate_all] reads nothing of
    the project and neither the weights nor [validation_categories] is
    looked at: it returns the score 0, the grade of 0 and an empty table,
    and the JSON run exits with status 2. *)
Theorem all_disabled_run (fmt_1f : Q -> string) (cfg : config)
    (descriptions : list (string * option string)) (snap : snapshot) :
  hooks_enabled cfg = false -> documentation_enabled cfg = false ->
  testing_enabled cfg = false -> quality_gates_enabled cfg = false ->
  git_enabled cfg = false -> security_enabled cfg = false ->
  naming_conventions_enabled cfg = false -> migrations_enabled_for_supabase cfg = false ->
  validate_all cfg snap = inr (0%Q, determine_grade (compliance_grading cfg) 0%Q, []) /\
  Report.main fmt_1f cfg descriptions snap true = inr 2.
Proof.
  intros H1 H2 H3 H4 H5 H6 H7 H8.
  assert (Hv : validate_all cfg snap
               = inr (0%Q, determine_grade (compliance_grading cfg) 0%Q, [])).
  { destruct cfg; simpl in *; subst. reflexivity. }
  split; [exact Hv|]. unfold Report.main. rewrite Hv. reflexivity.
Qed.

Lemma all_disabled_run_witness :
  validate_all (Demo.config_with None false false false false false false false false)
    Demo.ts_snap = inr (0%Q, "F", []) /\
  Report.main (fun _ => EmptyString)
    (Demo.config_with None false false false false false false false false) []
    Demo.ts_snap true = inr 2.
Proof.
  exact (all_disabled_run (fun _ => EmptyString)
           (Demo.config_with None false false false false false false false false) []
           Demo.ts_snap eq_refl eq_refl eq_refl eq_refl eq_refl eq_refl eq_refl eq_refl).
Defined.

Lemma count_by_all_passed (l : list ValidationResult) :
  Forall (fun r => passed r = true) l -> count_by is_fail l = 0 /\ count_by is_warn l = 0.
Proof.
  unfold count_by, is_fail, is_warn.
  induction 1 as [|r l Hr _ [IH1 IH2]]; simpl; [split; reflexivity|].
  rewrite Hr. simpl. split; assumption.
Qed.

(** the weighted sum of categories that all score 100 *)
Lemma weighted_sum_full (l : results_t) :
  Forall (fun cr => (score_formula cr == 100)%Q) l ->
  (fold_right (fun cr acc => score_formula cr * inject_Z (weight cr) + acc) 0 l
   == 100 * inject_Z (fold_right (fun cr acc => (weight cr + acc)%Z) 0%Z l))%Q.
Proof.
  induction 1 as [|cr l Hs _ IH]; simpl; [reflexivity|].
  rewrite inject_Z_plus, IH, Hs. ring.
Qed.

(** X14: when every outcome the evaluators record passes and the
    categories of the report carry a positive total weight, the overall
    score is 100 and the process exits with status 0. *)
Theorem all_passing_full_score (cfg : config) (snap : snapshot) (ov : Q) (g : string)
    (st : results_t) :
  validate_all cfg snap = inr (ov, g, st) ->
  Forall (fun r => passed r = true) (fst (run_evaluators cfg snap)) ->
  (0 < fold_right (fun cr acc => (weight cr + acc)%Z) 0%Z st)%Z ->
  (ov == 100)%Q /\ Report.exit_code ov = 0.
Proof.
  intros H Hp Hw.
  destruct (run_table cfg snap ov g st H) as (st0 & Ha & -> & Hinv & Hov & _).
  pose proof (add_all_inv (fun r => passed r = true) cfg _ [] st0 (Forall_nil _) Hp Ha) as Hi.
  pose proof (counts_table cfg _ st0 Ha) as Hc.
  assert (Hincl : included st0 = st0).
  { unfold included. apply forallb_filter_id, forallb_forall. intros cr Hcr.
    rewrite Forall_forall in Hinv. destruct (Hinv cr Hcr) as (_ & Ht & _).
    apply Nat.ltb_lt, Ht. }
  assert (Hfull : Forall (fun cr => (score_formula cr == 100)%Q) st0).
  { apply Forall_forall. intros cr Hcr. rewrite Forall_forall in Hi, Hc.
    destruct (Hi cr Hcr) as (_ & Ht & Hrs).
    destruct (Hc cr Hcr) as (_ & Hf & Hwn).
    assert (Hpr : Forall (fun r => passed r = true) (results cr))
      by (eapply Forall_impl; [|exact Hrs]; intros r [_ E]; exact E).
    destruct (count_by_all_passed _ Hpr) as [Z1 Z2].
    apply (score_formula_range cr Ht). split; congruence. }
  assert (Hws : weight_sum st0 = fold_right (fun cr acc => (weight cr + acc)%Z) 0%Z
                                            (map rescore st0)).
  { unfold weight_sum. rewrite Hincl. clear. induction st0 as [|cr st0 IH]; simpl;
      [reflexivity|]. rewrite rescore_weight, IH. reflexivity. }
  rewrite <- Hws in Hw.
  assert (Hsum : (weighted_sum st0 == 100 * inject_Z (weight_sum st0))%Q)
    by (unfold weighted_sum, weight_sum; rewrite Hincl; apply weighted_sum_full, Hfull).
  assert (H100 : (ov == 100)%Q).
  { rewrite Hov. unfold overall_of. apply Z.ltb_lt in Hw. rewrite Hw.
    rewrite Hsum. apply Z.ltb_lt in Hw.
    assert (HT : ~ (inject_Z (weight_sum st0) == 0)%Q)
      by (unfold Qeq; simpl; lia).
    field. exact HT. }
  split; [exact H100|]. unfold Report.exit_code.
  assert (Hq : Qle_bool 95 ov = true) by (apply Qle_bool_iff; rewrite H100; discriminate).
  rewrite Hq. reflexivity.
Qed.

(** only the git category enabled, on a project whose .gitignore lists
    every required entry *)
Definition complete_gitignore_snap : snapshot :=
  mkSnap [(".gitignore", Demo.ok_file "node_modules/ .env.local")].

Lemma all_passing_full_score_witness :
  exists ov g st,
    validate_all (Demo.git_only (Some Demo.weights)) complete_gitignore_snap
      = inr (ov, g, st) /\
    Forall (fun r => passed r = true)
      (fst (run_evaluators (Demo.git_only (Some Demo.weights)) complete_gitignore_snap)) /\
    (0 < fold_right (fun cr acc => (weight cr + acc)%Z) 0%Z st)%Z /\
    (ov == 100)%Q /\ Report.exit_code ov = 0.
Proof.
  pick_run E. exists ov, g, (cr :: st).
  assert (Hp : Forall (fun r => passed r = true)
                 (fst (run_evaluators (Demo.git_only (Some Demo.weights))
                                      complete_gitignore_snap)))
    by (vm_compute; repeat constructor).
  assert (Hw : (0 < fold_right (fun cr acc => (weight cr + acc)%Z) 0%Z (cr :: st))%Z)
    by (pose proof E as E'; vm_compute in E'; injection E' as _ _ <- <-; reflexivity).
  split; [reflexivity|]. split; [exact Hp|]. split; [exact Hw|].
  exact (all_passing_full_score (Demo.git_only (Some Demo.weights)) complete_gitignore_snap
           ov g (cr :: st) E Hp Hw).
Defined.

(** X15: the JSON report of a completed run carries the returned score
    and grade, and one entry per category of the table, keyed by the
    category name, in the order the categories first received an outcome
    and without repeated keys; in each entry the three counters add up to
    the number of listed results and the score lies between 0 and 100. *)
Theorem export_json_consistent (cfg : config) (snap : snapshot) (ov : Q) (g : string)
    (st : results_t) :
  validate_all cfg snap = inr (ov, g, st) ->
  exists cats,
    Report.export_json st ov g =
      Report.JObj [("overall_score", Report.JNum ov); ("grade", Report.JStr g);
                   ("categories", Report.JObj cats)] /\
    map fst cats = first_appearance (map category (fst (run_evaluators cfg snap))) /\
    NoDup (map fst cats) /\
    forall k j, In (k, j) cats ->
      exists sc wt p f w rs,
        j = Report.JObj [("score", Report.JNum sc); ("weight", Report.JInt wt);
                         ("checks_passed", Report.JInt p); ("checks_failed", Report.JInt f);
                         ("checks_warned", Report.JInt w); ("results", Report.JList rs)] /\
        (0 <= p)%Z /\ (0 <= f)%Z /\ (0 <= w)%Z /\
        (p + f + w)%Z = Z.of_nat (List.length rs) /\ (0 <= sc <= 100)%Q.
Proof.
  intros H. exists (map (fun cat => (name cat, Report.json_of_category cat)) st).
  split; [reflexivity|].
  destruct (report_categories_first_appearance_names cfg snap ov g st H) as [Hn Hd].
  rewrite map_map. simpl. split; [exact Hn|]. split; [exact Hd|].
  intros k j Hin. apply in_map_iff in Hin as (cr & Ekj & Hcr). injection Ekj as _ <-.
  destruct (table_counts cfg snap ov g st cr H Hcr) as (_ & _ & _ & Ht).
  destruct (table_score_range cfg snap ov g st cr H Hcr) as (Hs & _).
  do 6 eexists. split; [reflexivity|].
  rewrite length_map, <- Ht. unfold cat_total. rewrite !Nat2Z.inj_add.
  repeat split; try lia; apply Hs.
Qed.

Lemma export_json_consistent_witness :
  exists ov g st cats,
    validate_all Demo.all_on Demo.ts_snap = inr (ov, g, st) /\
    Report.export_json st ov g =
      Report.JObj [("overall_score", Report.JNum ov); ("grade", Report.JStr g);
                   ("categories", Report.JObj cats)] /\
    map fst cats = first_appearance (map category (fst (run_evaluators Demo.all_on Demo.ts_snap))) /\
    NoDup (map fst cats) /\
    forall k j, In (k, j) cats ->
      exists sc wt p f w rs,
        j = Report.JObj [("score", Report.JNum sc); ("weight", Report.JInt wt);
                         ("checks_passed", Report.JInt p); ("checks_failed", Report.JInt f);
                         ("checks_warned", Report.JInt w); ("results", Report.JList rs)] /\
        (0 <= p)%Z /\ (0 <= f)%Z /\ (0 <= w)%Z /\
        (p + f + w)%Z = Z.of_nat (List.length rs) /\ (0 <= sc <= 100)%Q.
Proof.
  pick_run E. exists ov, g, (cr :: st).
  destruct (export_json_consistent Demo.all_on Demo.ts_snap ov g (cr :: st) E) as (cats & Hc).
  exists cats. split; [reflexivity|]. exact Hc.
Defined.

(** ** Evaluators that cannot stop the run *)

(** an evaluator run that ends without an exception *)
Definition no_raise {A} (m : Eval A) : Prop := exists a, snd m = inr a.

Lemma no_raise_ret {A} (a : A) : no_raise (ret a).
Proof. exists a. reflexivity. Qed.

Lemma no_raise_add (r : ValidationResult) : no_raise (add_result r).
Proof. exists tt. reflexivity. Qed.

Lemma no_raise_bind {A B} (m : Eval A) (f : A -> Eval B) :
  no_raise m -> (forall a, no_raise (f a)) -> no_raise (bind m f).
Proof.
  destruct m as [l [e|a]]; simpl; intros [a' Hm] Hf; [discriminate Hm|].
  destruct (Hf a) as [b Hb]. destruct (f a) as [l' x]. simpl in *. exists b. exact Hb.
Qed.

Lemma no_raise_for {X} (l : list X) (body : X -> Eval unit) :
  (forall x, no_raise (body x)) -> no_raise (for_ l body).
Proof.
  intros H. induction l as [|x l IH]; simpl; [apply no_raise_ret|].
  apply no_raise_bind; [apply H | intros _; exact IH].
Qed.

Ltac no_raise_steps :=
  repeat match goal with
  | |- no_raise (bind _ _) => apply no_raise_bind; [|intros ?]
  | |- no_raise (ret _) => apply no_raise_ret
  | |- no_raise (add_result _) => apply no_raise_add
  | |- no_raise (for_ _ _) => apply no_raise_for; intros ?
  | |- no_raise (if ?b then _ else _) => destruct b
  | |- no_raise (match ?x with _ => _ end) => destruct x
  | |- no_raise (let _ := _ in _) => cbv zeta
  end.

Lemma no_raise_unit (m : Eval unit) : no_raise m -> snd m = inr tt.
Proof. intros [[] H]. exact H. Qed.

(** X16: [validate_hooks], [validate_testing], [validate_quality_gates]
    and [validate_naming_conventions] never raise, whatever the project
    holds (missing, unreadable or undecodable files included): an
    exception that ends a run comes from one of the other four
    evaluators or from [_add_result]. *)
Theorem evaluators_without_exceptions (cfg : config) (snap : snapshot) :
  snd (validate_hooks cfg snap) = inr tt /\
  snd (validate_testing cfg snap) = inr tt /\
  snd (validate_quality_gates cfg snap) = inr tt /\
  snd (validate_naming_conventions cfg snap) = inr tt.
Proof.
  repeat split; apply no_raise_unit;
    [unfold validate_hooks | unfold validate_testing | unfold validate_quality_gates
    | unfold validate_naming_conventions]; no_raise_steps.
Qed.

(** X17: when package.json is missing, unreadable or empty, neither the
    testing category nor the quality-gates category records a check about
    package scripts: no [test_script_*] outcome and no
    [quality_script_exists] outcome is emitted, so the absent scripts cost
    no points. *)
Theorem empty_package_json_skips_script_checks (cfg : config) (snap : snapshot) :
  truthy (read_file snap "package.json") = false ->
  Forall (fun r => In (check_name r)
                      ["vitest_config_exists"; "vitest_coverage_configured";
                       "playwright_config_exists"])
         (fst (validate_testing cfg snap)) /\
  Forall (fun r => In (check_name r)
                      ["eslint_config_exists"; "typescript_config_exists";
                       "typescript_strict_mode"; "prettier_config_exists"])
         (fst (validate_quality_gates cfg snap)).
Proof.
  intros Ht. split;
    [unfold validate_testing | unfold validate_quality_gates]; cbv zeta;
    destruct (read_file snap "package.json") as [pj|] eqn:Epj;
    try rewrite Ht;
    emit_steps ltac:(cbn [check_name]; repeat first [left; reflexivity | right]).
Qed.

Lemma empty_package_json_skips_script_checks_witness :
  truthy (read_file Demo.ts_snap "package.json") = false /\
  Forall (fun r => In (check_name r)
                      ["vitest_config_exists"; "vitest_coverage_configured";
                       "playwright_config_exists"])
         (fst (validate_testing Demo.all_on Demo.ts_snap)) /\
  Forall (fun r => In (check_name r)
                      ["eslint_config_exists"; "typescript_config_exists";
                       "typescript_strict_mode"; "prettier_config_exists"])
         (fst (validate_quality_gates Demo.all_on Demo.ts_snap)).
Proof.
  assert (Ht : truthy (read_file Demo.ts_snap "package.json") = false) by reflexivity.
  split; [exact Ht|].
  exact (empty_package_json_skips_script_checks Demo.all_on Demo.ts_snap Ht).
Defined.

(** ** Configuration files looked up in several places *)

Lemma fst_bind {A B} (m : Eval A) (f : A -> Eval B) :
  fst (bind m f) = app (fst m) (match snd m with inl _ => [] | inr a => fst (f a) end).
Proof.
  destruct m as [l [e|a]]; simpl; [rewrite app_nil_r; reflexivity|].
  destruct (f a) as [l' x]. reflexivity.
Qed.

Lemma first_existing_found (snap : snapshot) (l : list string) :
  match first_existing snap l with Some _ => true | None => false end
  = existsb (file_exists snap) l.
Proof.
  induction l as [|p l IH]; simpl; [reflexivity|].
  destruct (file_exists snap p); [reflexivity|exact IH].
Qed.

Ltac lookup_adds Ef :=
  split; intros Hn; cbn [check_name] in Hn;
  first [ discriminate Hn
        | cbn [passed]; rewrite <- first_existing_found, Ef; reflexivity
        | eexists; split; reflexivity ].

(** X18: with the testing category enabled and Vitest required,
    [validate_testing] records [vitest_config_exists], which passes
    exactly when one of the configured file, apps/web/vitest.config.ts
    and apps/web/vitest.config.js exists; [vitest_coverage_configured] is
    only recorded after such a file is found, and its verdict is whether
    the first of them that exists contains "thresholds". *)
Theorem vitest_config_lookup (cfg : config) (snap : snapshot) :
  testing_enabled cfg = true -> testing_vitest_required cfg = true ->
  let cands := [testing_vitest_config_file cfg; "apps/web/vitest.config.ts";
                "apps/web/vitest.config.js"] in
  (exists r, In r (fst (validate_testing cfg snap)) /\
             check_name r = "vitest_config_exists") /\
  Forall (fun r =>
    (check_name r = "vitest_config_exists" ->
       passed r = existsb (file_exists snap) cands) /\
    (check_name r = "vitest_coverage_configured" ->
       exists p, first_existing snap cands = Some p /\
                 passed r = check_file_contains snap p "thresholds"))
    (fst (validate_testing cfg snap)).
Proof.
  intros He Hr cands. unfold validate_testing. rewrite He, Hr. cbv zeta. cbn [negb]. split.
  - rewrite !fst_bind. cbn [fst snd add_result]. eexists.
    split; [left; reflexivity | reflexivity].
  - fold cands. destruct (first_existing snap cands) as [p|] eqn:Ef;
      emit_steps ltac:(lookup_adds Ef).
Qed.

Lemma vitest_config_lookup_witness :
  (exists r, In r (fst (validate_testing Demo.all_on Demo.ts_snap)) /\
             check_name r = "vitest_config_exists") /\
  Forall (fun r =>
    (check_name r = "vitest_config_exists" ->
       passed r = existsb (file_exists Demo.ts_snap)
                    [testing_vitest_config_file Demo.all_on; "apps/web/vitest.config.ts";
                     "apps/web/vitest.config.js"]) /\
    (check_name r = "vitest_coverage_configured" ->
       exists p, first_existing Demo.ts_snap
                   [testing_vitest_config_file Demo.all_on; "apps/web/vitest.config.ts";
                    "apps/web/vitest.config.js"] = Some p /\
                 passed r = check_file_contains Demo.ts_snap p "thresholds"))
    (fst (validate_testing Demo.all_on Demo.ts_snap)).
Proof. exact (vitest_config_lookup Demo.all_on Demo.ts_snap eq_refl eq_refl). Defined.

(** X19: with the quality-gates category enabled and ESLint required,
    [validate_quality_gates] records [eslint_config_exists], which passes
    exactly when one of the configured file, .eslintrc.json, .eslintrc.js,
    eslint.config.js, apps/web/eslint.config.mjs and
    apps/web/.eslintrc.json exists; [typescript_strict_mode] is only
    recorded when the configured TypeScript file exists, and its verdict
    is whether that file contains ["strict": true] verbatim. *)
Theorem eslint_config_lookup (cfg : config) (snap : snapshot) :
  quality_gates_enabled cfg = true -> quality_gates_eslint_required cfg = true ->
  let cands := [quality_gates_eslint_config_file cfg; ".eslintrc.json"; ".eslintrc.js";
                "eslint.config.js"; "apps/web/eslint.config.mjs";
                "apps/web/.eslintrc.json"] in
  let ts_file := quality_gates_typescript_config_file cfg in
  (exists r, In r (fst (validate_quality_gates cfg snap)) /\
             check_name r = "eslint_config_exists") /\
  Forall (fun r =>
    (check_name r = "eslint_config_exists" ->
       passed r = existsb (file_exists snap) cands) /\
    (check_name r = "typescript_strict_mode" ->
       file_exists snap ts_file = true /\
       passed r = check_file_contains snap ts_file (Py.dq ++ "strict" ++ Py.dq ++ ": true")))
    (fst (validate_quality_gates cfg snap)).
Proof.
  intros He Hr cands ts_file. unfold validate_quality_gates. rewrite He, Hr. cbv zeta.
  cbn [negb]. split.
  - rewrite !fst_bind. cbn [fst snd add_result]. eexists.
    split; [left; reflexivity | reflexivity].
  - fold cands ts_file. destruct (file_exists snap ts_file);
      emit_steps ltac:(split; intros Hn; cbn [check_name] in Hn;
        first [ discriminate Hn
              | cbn [passed]; rewrite <- first_existing_found; reflexivity
              | split; reflexivity ]).
Qed.

Lemma eslint_config_lookup_witness :
  (exists r, In r (fst (validate_quality_gates Demo.all_on Demo.ts_snap)) /\
             check_name r = "eslint_config_exists") /\
  Forall (fun r =>
    (check_name r = "eslint_config_exists" ->
       passed r = existsb (file_exists Demo.ts_snap)
                    [quality_gates_eslint_config_file Demo.all_on; ".eslintrc.json";
                     ".eslintrc.js"; "eslint.config.js"; "apps/web/eslint.config.mjs";
                     "apps/web/.eslintrc.json"]) /\
    (check_name r = "typescript_strict_mode" ->
       file_exists Demo.ts_snap (quality_gates_typescript_config_file Demo.all_on) = true /\
       passed r = check_file_contains Demo.ts_snap
                    (quality_gates_typescript_config_file Demo.all_on)
                    (Py.dq ++ "strict" ++ Py.dq ++ ": true")))
    (fst (validate_quality_gates Demo.all_on Demo.ts_snap)).
Proof. exact (eslint_config_lookup Demo.all_on Demo.ts_snap eq_refl eq_refl). Defined.

(** ** Markdown files at the project root *)

Lemma bind_inr {A B} (m : Eval A) (f : A -> Eval B) (b : B) :
  snd (bind m f) = inr b -> exists a, snd m = inr a /\ snd (f a) = inr b.
Proof.
  destruct m as [l [e|a]]; simpl; [discriminate|].
  intros H. exists a. split; [reflexivity|]. destruct (f a) as [l' x]. exact H.
Qed.

Lemma in_bind_r {A B} (m : Eval A) (f : A -> Eval B) (a : A) (r : ValidationResult) :
  snd m = inr a -> In r (fst (f a)) -> In r (fst (bind m f)).
Proof.
  rewrite fst_bind. intros -> H. apply in_or_app. right. exact H.
Qed.

Lemma root_md_verdict (l allowed : list string) :
  negb (negb (Nat.eqb (List.length
     (filter (fun f => Py.endswith f ".md" && negb (existsb (String.eqb f) allowed)) l)) 0))
  = true <->
  forall f, In f l -> Py.endswith f ".md" = true -> In f allowed.
Proof.
  rewrite negb_involutive, filter_length_zero, negb_true_iff. split.
  - intros H f Hf Hmd. destruct (existsb (String.eqb f) allowed) eqn:Ea.
    + apply existsb_exists in Ea as (x & Hx & Exf). apply String.eqb_eq in Exf.
      subst x. exact Hx.
    + assert (Hc : existsb (fun f => Py.endswith f ".md" && negb (existsb (String.eqb f) allowed))
                     l = true)
        by (apply existsb_exists; exists f; rewrite Hmd, Ea; split; [exact Hf|reflexivity]).
      rewrite Hc in H. discriminate H.
  - intros H. apply not_true_is_false. intros Hc.
    apply existsb_exists in Hc as (f & Hf & Hp). apply andb_true_iff in Hp as [Hmd Hn].
    specialize (H f Hf Hmd). apply negb_true_iff in Hn.
    assert (Ht : existsb (String.eqb f) allowed = true)
      by (apply existsb_exists; exists f; split; [exact H | apply String.eqb_refl]).
    rewrite Ht in Hn. discriminate Hn.
Qed.

(** X20: when [validate_documentation] runs to its end it records
    [no_forbidden_root_md], and that check passes exactly when every
    entry directly under the project root whose name ends in ".md" (a
    directory so named included, as [os.listdir] lists both) is one of
    [allowed_root_files]; on failure its details name the offending
    entries. *)
Theorem root_md_files_check (cfg : config) (snap : snapshot) :
  documentation_enabled cfg = true ->
  snd (validate_documentation cfg snap) = inr tt ->
  let offending := filter (fun f => Py.endswith f ".md" &&
                     negb (existsb (String.eqb f) (documentation_allowed_root_files cfg)))
                     (FS.listdir snap) in
  (exists r, In r (fst (validate_documentation cfg snap)) /\
             check_name r = "no_forbidden_root_md") /\
  Forall (fun r => check_name r = "no_forbidden_root_md" ->
    (passed r = true <->
     forall f, In f (FS.listdir snap) -> Py.endswith f ".md" = true ->
               In f (documentation_allowed_root_files cfg)) /\
    (passed r = false -> details r = Some ("Found: " ++ Py.join ", " offending)))
    (fst (validate_documentation cfg snap)).
Proof.
  intros He Hok offending. unfold validate_documentation in *. rewrite He in *.
  cbv zeta in *. cbn [negb] in *. split.
  - apply bind_inr in Hok as (a & _ & Hok). apply bind_inr in Hok as (a' & Hx & Hok).
    eexists. split.
    + eapply in_bind_r; [reflexivity|]. eapply in_bind_r; [exact Hx|].
      cbn. right. left. reflexivity.
    + reflexivity.
  - clear Hok. emit_steps ltac:(intros Hn; cbn [check_name] in Hn;
      first [ discriminate Hn
            | split; [ apply root_md_verdict
                     | cbn [passed details]; fold offending;
                       destruct (Nat.eqb (List.length offending) 0);
                       [discriminate | reflexivity] ] ]).
Qed.

(** a project with README.md and a directory named notes.md at its root *)
Definition md_dir_snap : snapshot :=
  mkSnap [("README.md", Demo.ok_file "# Project"); ("notes.md", EDir)].

Lemma root_md_files_check_witness :
  snd (validate_documentation Demo.all_on md_dir_snap) = inr tt /\
  (exists r, In r (fst (validate_documentation Demo.all_on md_dir_snap)) /\
             check_name r = "no_forbidden_root_md") /\
  Forall (fun r => check_name r = "no_forbidden_root_md" ->
    (passed r = true <->
     forall f, In f (FS.listdir md_dir_snap) -> Py.endswith f ".md" = true ->
               In f (documentation_allowed_root_files Demo.all_on)) /\
    (passed r = false ->
     details r = Some ("Found: " ++ Py.join ", "
                  (filter (fun f => Py.endswith f ".md" &&
                     negb (existsb (String.eqb f)
                             (documentation_allowed_root_files Demo.all_on)))
                     (FS.listdir md_dir_snap)))))
    (fst (validate_documentation Demo.all_on md_dir_snap)).
Proof.
  assert (Hok : snd (validate_documentation Demo.all_on md_dir_snap) = inr tt)
    by (vm_compute; reflexivity).
  split; [exact Hok|].
  exact (root_md_files_check Demo.all_on md_dir_snap eq_refl Hok).
Defined.
